(** * NeuroChatAI: the conversational request pipeline of [streamlit_app.py]

    A shallow embedding of the session state, the rate limiter, the prompt
    builder, the completion client and the controller, followed by the
    properties of the specification that concern them.

    Conventions of the embedding.
    - A Python [str] is a [string], one [ascii] per code point (code points
      below 256).
    - A Python [float] timestamp or interval is an exact rational ([Q]); the
      subtraction [current_time - last_request_time] is taken exactly.
    - [st.session_state] is a record, threaded through a small monad that
      also collects what the code shows, logs and sends, and carries a raised
      exception.
    - The clock and the HTTP endpoint are the environment: [time.time()] is
      the argument [now], the outcome of the POST is the argument [api]. *)

From Stdlib Require Import String Ascii List Bool ZArith QArith Lia Lqa.
Import ListNotations.

Open Scope string_scope.

(** ** Python primitives used by the application *)

Module Py.

(** The one-character string made of a line feed. *)
Definition nl : string := String "010"%char EmptyString.

(** [str.isspace] on one code point below 256. *)
Definition isspace (c : ascii) : bool :=
  let n := nat_of_ascii c in
  ((9 <=? n) && (n <=? 13) || (28 <=? n) && (n <=? 32)
   || (n =? 133) || (n =? 160))%nat.

Fixpoint lstrip (s : string) : string :=
  match s with
  | EmptyString => EmptyString
  | String c s' => if isspace c then lstrip s' else s
  end.

Fixpoint rstrip (s : string) : string :=
  match s with
  | EmptyString => EmptyString
  | String c s' =>
      match rstrip s' with
      | EmptyString => if isspace c then EmptyString else String c EmptyString
      | r => String c r
      end
  end.

(** [s.strip()] *)
Definition strip (s : string) : string := lstrip (rstrip s).

(** Truth value of a [str]: non-empty. *)
Definition truthy_str (s : string) : bool :=
  match s with EmptyString => false | _ => true end.

(** [sep.join(l)] *)
Definition join (sep : string) (l : list string) : string :=
  String.concat sep l.

(** [l[i:]] for any integer [i]: a negative [i] counts from the end and is
    clamped at the start of the list; note that [l[-0:]] is [l[0:]]. *)
Definition slice_from {A} (i : Z) (l : list A) : list A :=
  let len := Z.of_nat (length l) in
  let start := if (i <? 0)%Z then Z.max (len + i) 0 else Z.min i len in
  skipn (Z.to_nat start) l.

(** The list after [l.append(x)]. *)
Definition append {A} (l : list A) (x : A) : list A := (l ++ [x])%list.

(** [x < y] on timestamps. *)
Definition Qltb (x y : Q) : bool := negb (Qle_bool y x).

End Py.

(** ** Data model *)

Inductive Role := user | assistant.

(** [{"role": ..., "content": ...}] *)
Record Message := mkMessage { role : Role; content : string }.

(** The keys of [st.session_state] set up by [initialize_session_state]. *)
Record SessionState := mkState {
  messages : list Message;
  api_health : bool;
  last_api_check : option Q;
  system_prompt : string;
  chat_style : string;
  last_request_time : Q
}.

Definition set_messages (l : list Message) (s : SessionState) : SessionState :=
  mkState l (api_health s) (last_api_check s) (system_prompt s)
          (chat_style s) (last_request_time s).

Definition set_system_prompt (p : string) (s : SessionState) : SessionState :=
  mkState (messages s) (api_health s) (last_api_check s) p
          (chat_style s) (last_request_time s).

Definition set_last_request_time (t : Q) (s : SessionState) : SessionState :=
  mkState (messages s) (api_health s) (last_api_check s) (system_prompt s)
          (chat_style s) t.

(** Module-level configuration read from the environment. *)
Record Config := mkConfig {
  MAX_HISTORY_MESSAGES : Z;
  RATE_LIMIT_SECONDS : Q
}.

(** The values used when the environment sets nothing. *)
Definition default_config : Config := mkConfig 5 1.

(** The request body of the completion endpoint. *)
Record Payload := mkPayload {
  prompt : string;
  max_tokens : Z;
  temperature : Q;
  model : string;
  stop : list string
}.

(** A decoded JSON document, as [response.json()] returns it. *)
#[warnings="-register-all"]
Inductive json :=
| JNull
| JBool (b : bool)
| JNum (q : Q)
| JStr (s : string)
| JArr (l : list json)
| JObj (kv : list (string * json)).

(** ** Exceptions *)

(** The classes of the exceptions that reach the controller: those of the
    [requests] library, the decoder's, and the interpreter's own.  All of
    them derive from [Exception]; interrupts and the like are outside the
    model. *)
Inductive ExnClass :=
| requests_Timeout
| requests_ConnectionError
| requests_HTTPError
| requests_JSONDecodeError
| json_JSONDecodeError
| KeyError
| IndexError
| TypeError
| AttributeError.

Record PyExn := mkExn { exn_class : ExnClass; exn_str : string }.

(** The classes named by the [except] clauses of the program. *)
Inductive Handler :=
| H_Timeout
| H_RequestException
| H_JSONDecodeError
| H_Exception.

(** [isinstance(e, h)]: the class hierarchy.  In [requests] (2.27 and later)
    [JSONDecodeError] derives from both [InvalidJSONError], a
    [RequestException], and [json.JSONDecodeError]. *)
Definition isinstance (c : ExnClass) (h : Handler) : bool :=
  match h, c with
  | H_Exception, _ => true
  | H_Timeout, requests_Timeout => true
  | H_RequestException,
    (requests_Timeout | requests_ConnectionError | requests_HTTPError
     | requests_JSONDecodeError) => true
  | H_JSONDecodeError, (requests_JSONDecodeError | json_JSONDecodeError) => true
  | _, _ => false
  end.

(** ** What a run shows, logs and sends *)

Inductive Event :=
| st_warning (m : string)
| st_warning_wait (secs : Q)   (* "Please wait {secs} seconds between messages." *)
| st_error (m : string)
| st_success (m : string)
| logger_error (m : string)
| chat_write (r : Role) (m : string)
| requests_post (url : string) (p : Payload).

(** ** The monad of the controller: session state, events, exceptions *)

Inductive Res (A : Type) :=
| Ret (a : A)
| Raise (e : PyExn).
Arguments Ret {A} a.
Arguments Raise {A} e.

Definition M (A : Type) : Type :=
  SessionState -> Res A * SessionState * list Event.

Definition ret {A} (a : A) : M A := fun s => (Ret a, s, []).

(** The outcome [x] of a continuation, after the events [ev]. *)
Definition after {A} (ev : list Event) (x : Res A * SessionState * list Event)
  : Res A * SessionState * list Event :=
  let '(r, s, ev') := x in (r, s, (ev ++ ev')%list).

Definition bind {A B} (m : M A) (f : A -> M B) : M B :=
  fun s =>
    match m s with
    | (Ret a, s1, ev1) => after ev1 (f a s1)
    | (Raise e, s1, ev1) => (Raise e, s1, ev1)
    end.

Notation "x <- m ;; k" := (bind m (fun x => k))
  (at level 61, m at next level, right associativity).
Notation "m ;;; k" := (bind m (fun _ => k))
  (at level 61, right associativity).

Definition get : M SessionState := fun s => (Ret s, s, []).
Definition modify (f : SessionState -> SessionState) : M unit :=
  fun s => (Ret tt, f s, []).
Definition emit (e : Event) : M unit := fun s => (Ret tt, s, [e]).
Definition lift {A} (r : Res A) : M A := fun s => (r, s, []).

(** [try: body / except ...]: [handler e] is the body of the first clause
    that matches [e], if there is one. *)
Definition try_except {A} (body : M A) (handler : PyExn -> option (M A)) : M A :=
  fun s =>
    match body s with
    | (Raise e, s1, ev1) =>
        match handler e with
        | Some h => after ev1 (h s1)
        | None => (Raise e, s1, ev1)
        end
    | r => r
    end.

Definition result {A} (x : Res A * SessionState * list Event) : Res A :=
  fst (fst x).
Definition state_of {A} (x : Res A * SessionState * list Event) : SessionState :=
  snd (fst x).
Definition events {A} (x : Res A * SessionState * list Event) : list Event :=
  snd x.

(** ** Session state store *)

Definition default_system_prompt : string :=
  "You are a helpful AI assistant. " ++ Py.nl ++
  "        You provide clear, accurate, and concise responses while being friendly and professional.".

(** The state [initialize_session_state] builds in a fresh session. *)
Definition initial_state : SessionState :=
  mkState [] true None default_system_prompt "modern" 0.

(** ** Rate limiter *)

Definition rate_limit_check (cfg : Config) (now : Q) : M bool :=
  s <- get ;;
  if Py.Qltb (now - last_request_time s) (RATE_LIMIT_SECONDS cfg) then
    emit (st_warning_wait (RATE_LIMIT_SECONDS cfg)) ;;;
    ret false
  else
    modify (set_last_request_time now) ;;;
    ret true.

(** ** Prompt builder *)

Definition format_message (msg : Message) : string :=
  let r := match role msg with user => "Human:" | assistant => "Assistant:" end in
  r ++ " " ++ content msg.

Definition build_prompt_with_history (cfg : Config) (user_input : string) : M string :=
  s <- get ;;
  let history := [] in
  let history :=
    if Py.truthy_str (system_prompt s)
    then Py.append history ("System: " ++ system_prompt s ++ Py.nl)
    else history in
  let history :=
    fold_left (fun history msg => Py.append history (format_message msg))
              (Py.slice_from (- MAX_HISTORY_MESSAGES cfg) (messages s))
              history in
  let history := Py.append history ("Human: " ++ user_input) in
  ret (Py.join Py.nl history ++ Py.nl ++ "Assistant:").

(** ** Completion client *)

(** The outcome of the body of the [try]: the POST, [raise_for_status] and
    [response.json()] either raise or give the decoded document. *)
Definition Api : Type := string -> Payload -> Res json.

Definition send_request_to_model (api : Api) (api_url : string) (payload : Payload)
  : M (option json) :=
  try_except
    (emit (requests_post api_url payload) ;;;
     j <- lift (api api_url payload) ;;
     ret (Some j))
    (fun e =>
       if isinstance (exn_class e) H_Timeout then Some (
         emit (st_error "Request timed out. Please try again.") ;;;
         emit (logger_error "API request timed out") ;;;
         ret None)
       else if isinstance (exn_class e) H_RequestException then Some (
         emit (st_error ("API Error: " ++ exn_str e)) ;;;
         emit (logger_error ("API request failed: " ++ exn_str e)) ;;;
         ret None)
       else if isinstance (exn_class e) H_JSONDecodeError then Some (
         emit (st_error "Invalid response from API") ;;;
         emit (logger_error "Failed to decode API response") ;;;
         ret None)
       else None).

(** ** Operations of the interpreter on a decoded document

    The text of an exception the interpreter raises itself is abbreviated:
    its wording differs between versions of the interpreter. *)

Module Dyn.

Definition rbind {A B} (r : Res A) (f : A -> Res B) : Res B :=
  match r with Ret a => f a | Raise e => Raise e end.

(** Truth value of a document. *)
Definition truthy (j : json) : bool :=
  match j with
  | JNull => false
  | JBool b => b
  | JNum q => negb (Qeq_bool q 0)
  | JStr s => Py.truthy_str s
  | JArr l => match l with [] => false | _ => true end
  | JObj kv => match kv with [] => false | _ => true end
  end.

Fixpoint lookup (key : string) (kv : list (string * json)) : option json :=
  match kv with
  | [] => None
  | (k, v) :: kv' => if (k =? key)%string then Some v else lookup key kv'
  end.

(** [key in j] for a [str] key. *)
Definition contains (key : string) (j : json) : Res bool :=
  match j with
  | JObj kv => Ret (match lookup key kv with Some _ => true | None => false end)
  | JArr l =>
      Ret (existsb (fun x => match x with
                             | JStr s => (s =? key)%string
                             | _ => false
                             end) l)
  | JStr s => Ret (match String.index 0 key s with Some _ => true | None => false end)
  | _ => Raise (mkExn TypeError "argument is not iterable")
  end.

(** [j[key]] for a [str] key. *)
Definition getitem (j : json) (key : string) : Res json :=
  match j with
  | JObj kv =>
      match lookup key kv with
      | Some v => Ret v
      | None => Raise (mkExn KeyError ("'" ++ key ++ "'"))
      end
  | JArr _ => Raise (mkExn TypeError "list indices must be integers")
  | JStr _ => Raise (mkExn TypeError "string indices must be integers")
  | _ => Raise (mkExn TypeError "object is not subscriptable")
  end.

(** [j[0]] *)
Definition getitem0 (j : json) : Res json :=
  match j with
  | JArr (x :: _) => Ret x
  | JArr [] => Raise (mkExn IndexError "list index out of range")
  | JStr (String c _) => Ret (JStr (String c EmptyString))
  | JStr EmptyString => Raise (mkExn IndexError "string index out of range")
  | JObj _ => Raise (mkExn KeyError "0")
  | _ => Raise (mkExn TypeError "object is not subscriptable")
  end.

(** [j.strip()] *)
Definition strip (j : json) : Res string :=
  match j with
  | JStr s => Ret (Py.strip s)
  | _ => Raise (mkExn AttributeError "object has no attribute 'strip'")
  end.

End Dyn.

(** ** Conversation controller *)

(** [response and "choices" in response and response["choices"]], as a
    truth value. *)
Definition has_choices (response : option json) : Res bool :=
  match response with
  | None => Ret false
  | Some j =>
      if Dyn.truthy j then
        Dyn.rbind (Dyn.contains "choices" j) (fun c =>
          if c then Dyn.rbind (Dyn.getitem j "choices") (fun ch => Ret (Dyn.truthy ch))
          else Ret false)
      else Ret false
  end.

(** [response["choices"][0]["text"].strip()] *)
Definition first_choice_text (j : json) : Res string :=
  Dyn.rbind (Dyn.getitem j "choices") (fun ch =>
  Dyn.rbind (Dyn.getitem0 ch) (fun c0 =>
  Dyn.rbind (Dyn.getitem c0 "text") Dyn.strip)).

Definition stop_sequences : list string :=
  [Py.nl ++ "Human:"; Py.nl ++ Py.nl ++ "Human:"; Py.nl ++ "System:"].

Definition handle_user_input (cfg : Config) (now : Q) (api : Api)
    (user_input api_url model_name : string) (temperature : Q) (max_tokens : Z)
  : M unit :=
  allowed <- rate_limit_check cfg now ;;
  if negb allowed then ret tt else
  if negb (Py.truthy_str (Py.strip user_input)) then
    emit (st_warning "Please enter a non-empty message.")
  else
    modify (fun s => set_messages (Py.append (messages s) (mkMessage user user_input)) s) ;;;
    emit (chat_write user user_input) ;;;
    prompt <- build_prompt_with_history cfg user_input ;;
    let payload := mkPayload prompt max_tokens temperature model_name stop_sequences in
    response <- send_request_to_model api api_url payload ;;
    valid <- lift (has_choices response) ;;
    match valid, response with
    | true, Some j =>
        ai_message <- lift (first_choice_text j) ;;
        modify (fun s => set_messages (Py.append (messages s) (mkMessage assistant ai_message)) s) ;;;
        emit (chat_write assistant ai_message)
    | _, _ =>
        emit (st_error "Failed to get a valid response from the model.")
    end.

(** ** One run of the script

    Each interaction reruns [main]; at most one control is active in a run.
    The rendering of the page is not modelled, only the controls that reach
    the conversation state: what the sidebar itself shows (the warning for
    an API URL that [validate_api_url] refuses among it) is not among the
    events of [main], which therefore serves for statements about the
    session state. *)

Definition PREDEFINED_PROMPTS : list string :=
  [ "Tell me a joke about programming.";
    "Explain how APIs work in simple terms.";
    "Write a short Python function to calculate fibonacci numbers.";
    "What are the best practices for code documentation?";
    "Generate a creative story about AI and humans working together." ].

Inductive Action :=
| UpdateSystemPrompt (text : string)   (* the "Update System Prompt" button *)
| QuickPrompt (n : nat)                (* the button of the n-th quick prompt *)
| ResetChat                            (* the "Reset Chat" button *)
| ChatInput (text : string).           (* a submitted chat message *)

(** The values of the sidebar widgets and the environment of one run. *)
Record Turn := mkTurn {
  action : Action;
  now : Q;
  api : Api;
  api_url : string;
  model_name : string;
  turn_temperature : Q;
  turn_max_tokens : Z
}.

(** The body of the "Reset Chat" button. *)
Definition reset_chat : M unit :=
  modify (set_messages []) ;;;
  emit (st_success "Chat history has been reset.").

Definition run_action (cfg : Config) (t : Turn) : M unit :=
  let handle text :=
    handle_user_input cfg (now t) (api t) text (api_url t) (model_name t)
                      (turn_temperature t) (turn_max_tokens t) in
  match action t with
  | UpdateSystemPrompt text =>
      modify (set_system_prompt text) ;;;
      emit (st_success "System prompt updated!")
  | QuickPrompt n =>
      match nth_error PREDEFINED_PROMPTS n with
      | Some p => handle p
      | None => ret tt
      end
  | ResetChat => reset_chat
  | ChatInput text =>
      if Py.truthy_str text then handle text else ret tt
  end.

Definition main (cfg : Config) (t : Turn) : M unit :=
  try_except (run_action cfg t)
    (fun e =>
       if isinstance (exn_class e) H_Exception then Some (
         emit (logger_error ("Application error: " ++ exn_str e)) ;;;
         emit (st_error "An unexpected error occurred. Please refresh the page and try again."))
       else None).

(** The session state after a sequence of runs. *)
Fixpoint run_session (cfg : Config) (ts : list Turn) (s : SessionState) : SessionState :=
  match ts with
  | [] => s
  | t :: ts' => run_session cfg ts' (state_of (main cfg t s))
  end.

Definition is_reset (t : Turn) : bool :=
  match action t with ResetChat => true | _ => false end.

(** The answers of a sequence of calls of the rate limiter on one state,
    at the given clock readings. *)
Fixpoint gate_trace (cfg : Config) (nows : list Q) (s : SessionState) : list bool :=
  match nows with
  | [] => []
  | t :: nows' =>
      let r := rate_limit_check cfg t s in
      match result r with
      | Ret b => b :: gate_trace cfg nows' (state_of r)
      | Raise _ => []
      end
  end.

(** ** Definitions used to state the properties *)

(** The lines of the prompt before the cue, and the prompt itself. *)
Definition system_lines (s : SessionState) : list string :=
  if Py.truthy_str (system_prompt s)
  then ["System: " ++ system_prompt s ++ Py.nl] else [].

Definition prompt_lines (cfg : Config) (user_input : string) (s : SessionState)
  : list string :=
  (system_lines s
   ++ map format_message (Py.slice_from (- MAX_HISTORY_MESSAGES cfg) (messages s))
   ++ [("Human: " ++ user_input)%string])%list.

(** A message of the log as the specification renders it. *)
Definition line_by_role (m : Message) : string :=
  match role m with
  | user => "Human: " ++ content m
  | assistant => "Assistant: " ++ content m
  end.

(** The state once the gate has opened and the user turn is appended. *)
Definition with_user_turn (now : Q) (user_input : string) (s : SessionState)
  : SessionState :=
  set_messages (Py.append (messages s) (mkMessage user user_input))
               (set_last_request_time now s).

(** The request sent from that state. *)
Definition sent_payload (cfg : Config) (user_input model_name : string)
    (temperature : Q) (max_tokens : Z) (s1 : SessionState) : Payload :=
  mkPayload (Py.join Py.nl (prompt_lines cfg user_input s1)
             ++ Py.nl ++ "Assistant:")
            max_tokens temperature model_name stop_sequences.

(** What the clause of [send_request_to_model] that catches [e] shows and
    logs, if a clause catches it. *)
Definition failure_report (e : PyExn) : option (list Event) :=
  if isinstance (exn_class e) H_Timeout then
    Some [st_error "Request timed out. Please try again.";
          logger_error "API request timed out"]
  else if isinstance (exn_class e) H_RequestException then
    Some [st_error ("API Error: " ++ exn_str e);
          logger_error ("API request failed: " ++ exn_str e)]
  else if isinstance (exn_class e) H_JSONDecodeError then
    Some [st_error "Invalid response from API";
          logger_error "Failed to decode API response"]
  else None.

Definition no_valid_response : Event :=
  st_error "Failed to get a valid response from the model.".

(** [s'] has the log of [s], followed by appended messages. *)
Definition log_extends (s s' : SessionState) : Prop :=
  exists appended, messages s' = (messages s ++ appended)%list.

(** A computation that only ever appends to the log, whether it ends
    normally or raises. *)
Definition appends_only {A} (m : M A) : Prop :=
  forall s, log_extends s (state_of (m s)).

(** ** Sample sessions and endpoints *)

(** A completion endpoint that answers one choice. *)
Definition echo_api : Api :=
  fun _ _ => Ret (JObj [("choices", JArr [JObj [("text", JStr " hi ")]])]).

(** A session with a short system prompt and an empty log. *)
Definition terse_state : SessionState :=
  mkState [] true None "Be terse." "modern" 0.

(** An endpoint that never answers in time. *)
Definition timeout_api : Api :=
  fun _ _ => Raise (mkExn requests_Timeout "Read timed out.").

(** An endpoint whose answer decodes but carries no completion. *)
Definition no_choices_api : Api :=
  fun _ _ => Ret (JObj [("id", JStr "cmpl-1")]).

(** An endpoint whose only choice lacks the text field. *)
Definition textless_api : Api :=
  fun _ _ => Ret (JObj [("choices", JArr [JObj []])]).

Definition sample_log : list Message :=
  [ mkMessage user "a"; mkMessage assistant "b"; mkMessage user "c" ].

Definition sample_turns : list Turn :=
  [ mkTurn (ChatInput "Hello") 100 echo_api "url" "m" 0.7 512;
    mkTurn (ChatInput "Again") 100.5 echo_api "url" "m" 0.7 512;
    mkTurn (QuickPrompt 0) 102 timeout_api "url" "m" 0.7 512;
    mkTurn (UpdateSystemPrompt "Be kind.") 103 echo_api "url" "m" 0.7 512 ].

(** ** Session state as the dictionary it is

    [initialize_session_state] works on [st.session_state] key by key, so
    for it the state is a dictionary that may lack keys. *)

Inductive Value :=
| VMessages (l : list Message)
| VBool (b : bool)
| VNone
| VStr (s : string)
| VNum (q : Q).

Definition SessionDict : Type := list (string * Value).

Fixpoint dict_lookup (k : string) (d : SessionDict) : option Value :=
  match d with
  | [] => None
  | (k', v) :: d' => if (k' =? k)%string then Some v else dict_lookup k d'
  end.

(** [k in d] *)
Definition dict_contains (k : string) (d : SessionDict) : bool :=
  match dict_lookup k d with Some _ => true | None => false end.

(** The dictionary after [d[k] = v]. *)
Fixpoint dict_set (k : string) (v : Value) (d : SessionDict) : SessionDict :=
  match d with
  | [] => [(k, v)]
  | (k', v') :: d' =>
      if (k' =? k)%string then (k, v) :: d' else (k', v') :: dict_set k v d'
  end.

Definition default_states : SessionDict :=
  [ ("messages", VMessages []);
    ("api_health", VBool true);
    ("last_api_check", VNone);
    ("system_prompt", VStr default_system_prompt);
    ("chat_style", VStr "modern");
    ("last_request_time", VNum 0) ].

(** One round of the loop of [initialize_session_state]. *)
Definition fill_step (d : SessionDict) (kv : string * Value) : SessionDict :=
  if dict_contains (fst kv) d then d else dict_set (fst kv) (snd kv) d.

(** The loop, over any table of defaults. *)
Definition fill_defaults (defaults d : SessionDict) : SessionDict :=
  fold_left fill_step defaults d.

Definition initialize_session_state (d : SessionDict) : SessionDict :=
  fill_defaults default_states d.

(** The record read off a dictionary that holds the six keys. *)
Definition session_of_dict (d : SessionDict) : option SessionState :=
  match dict_lookup "messages" d, dict_lookup "api_health" d,
        dict_lookup "last_api_check" d, dict_lookup "system_prompt" d,
        dict_lookup "chat_style" d, dict_lookup "last_request_time" d with
  | Some (VMessages l), Some (VBool h), Some c, Some (VStr p),
    Some (VStr style), Some (VNum t) =>
      match c with
      | VNone => Some (mkState l h None p style t)
      | VNum q => Some (mkState l h (Some q) p style t)
      | _ => None
      end
  | _, _, _, _, _, _ => None
  end.

(** ** Export *)

Definition APP_NAME : string := "NeuroChatAI".
Definition APP_VERSION : string := "1.0.0".
Definition GITHUB_REPO : string := "https://github.com/Cs944612/NeuroChatAI".
Definition CREATED_DATE : string := "2025-01-22 16:10:37 UTC".
Definition AUTHOR : string := "Cs944612".

Definition get_app_info : json :=
  JObj [ ("name", JStr APP_NAME);
         ("version", JStr APP_VERSION);
         ("created", JStr CREATED_DATE);
         ("author", JStr AUTHOR);
         ("repository", JStr GITHUB_REPO) ].

Definition role_name (r : Role) : string :=
  match r with user => "user" | assistant => "assistant" end.

(** A message of the log as the dictionary it is. *)
Definition message_json (m : Message) : json :=
  JObj [ ("role", JStr (role_name (role m))); ("content", JStr (content m)) ].

(** The download the export offers: [data] is the document handed to
    [json.dumps]; the label of the button is left out. *)
Record Download := mkDownload {
  data : json;
  file_name : string;
  mime : string
}.

(** [export_chat_history], given the formatted clock reading
    [datetime.now().strftime("%Y%m%d_%H%M%S")]: the download button it
    shows, if it shows one. *)
Definition export_chat_history (timestamp : string) (s : SessionState)
  : option Download :=
  match messages s with
  | [] => None
  | _ =>
      let filename := "chat_history_" ++ timestamp ++ ".json" in
      let chat_data :=
        JObj [ ("app_info", get_app_info);
               ("timestamp", JStr timestamp);
               ("messages", JArr (map message_json (messages s)));
               ("system_prompt", JStr (system_prompt s)) ] in
      Some (mkDownload chat_data filename "application/json")
  end.

(** ** Health probe *)

(** [check_api_health]: [get url] is the outcome of the GET, a status code
    or a raised exception.  The first component is the URL probed. *)
Definition check_api_health (get_status : string -> Res Z) (api_url : string)
  : string * Res bool :=
  let url := api_url ++ "/health" in
  (url,
   match get_status url with
   | Ret status_code => Ret (status_code =? 200)%Z
   | Raise e =>
       if isinstance (exn_class e) H_RequestException then Ret false
       else Raise e
   end).

(** ** Further definitions used to state properties *)

(** Every character of [s] is white space. *)
Fixpoint all_whitespace (s : string) : bool :=
  match s with
  | EmptyString => true
  | String c s' => Py.isspace c && all_whitespace s'
  end.

Definition is_post (e : Event) : bool :=
  match e with requests_post _ _ => true | _ => false end.

(** The number of requests sent in a run. *)
Definition count_posts (evs : list Event) : nat :=
  length (filter is_post evs).

(** [s'] differs from [s] at most in the log and the time of the last
    request. *)
Definition same_settings (s s' : SessionState) : Prop :=
  system_prompt s' = system_prompt s
  /\ api_health s' = api_health s
  /\ last_api_check s' = last_api_check s
  /\ chat_style s' = chat_style s.

(** Every assistant message of the log stands right after a user message. *)
Definition answers_follow_questions (l : list Message) : Prop :=
  forall i a,
    nth_error l i = Some a -> role a = assistant ->
    exists q, (0 < i)%nat /\ nth_error l (i - 1) = Some q /\ role q = user.

(** User messages are not blank; assistant messages carry no surrounding
    white space. *)
Definition content_checked (m : Message) : Prop :=
  match role m with
  | user => Py.strip (content m) <> ""
  | assistant => Py.strip (content m) = content m
  end.

(** ** The model on concrete inputs *)

Example strip_spaces : Py.strip "  hi there  " = "hi there".
Proof. reflexivity. Qed.

Example strip_blank : Py.strip (" " ++ Py.nl ++ " ") = "".
Proof. reflexivity. Qed.

Example slice_last_two : Py.slice_from (-2) [1; 2; 3; 4]%nat = [3; 4]%nat.
Proof. reflexivity. Qed.

Example slice_short_list : Py.slice_from (-5) [1; 2]%nat = [1; 2]%nat.
Proof. reflexivity. Qed.

Example slice_minus_zero : Py.slice_from (-0) [1; 2; 3]%nat = [1; 2; 3]%nat.
Proof. reflexivity. Qed.

(** A completion [{"choices": [{"text": " hi "}]}] appends the assistant
    message "hi". *)
Example choice_text_is_stripped :
  messages
    (state_of
       (handle_user_input default_config 100
          (fun _ _ => Ret (JObj [("choices", JArr [JObj [("text", JStr " hi ")]])]))
          "Hello" "url" "m" 0.7 512 initial_state))
  = [mkMessage user "Hello"; mkMessage assistant "hi"].
Proof. reflexivity. Qed.

(** A completion [{"choices": []}] appends nothing and is reported. *)
Example empty_choices_reported :
  let r := handle_user_input default_config 100
             (fun _ _ => Ret (JObj [("choices", JArr [])]))
             "Hello" "url" "m" 0.7 512 initial_state in
  messages (state_of r) = [mkMessage user "Hello"]
  /\ last (events r) (st_warning "")
     = st_error "Failed to get a valid response from the model.".
Proof. split; reflexivity. Qed.

(** A choice without a "text" field raises [KeyError], which [main] turns
    into the notice of an unexpected error. *)
Example choice_without_text :
  let t := mkTurn (ChatInput "Hello") 100
             (fun _ _ => Ret (JObj [("choices", JArr [JObj []])]))
             "url" "m" 0.7 512 in
  result (run_action default_config t initial_state)
    = Raise (mkExn KeyError "'text'")
  /\ result (main default_config t initial_state) = Ret tt
  /\ last (events (main default_config t initial_state)) (st_warning "")
     = st_error "An unexpected error occurred. Please refresh the page and try again.".
Proof. repeat split. Qed.

(** * Properties *)

(** ** Running the monad *)

Lemma after_nil {A} (x : Res A * SessionState * list Event) : after [] x = x.
Proof. now destruct x as [[r s] ev]. Qed.

Lemma bind_ret_step {A B} (m : M A) (f : A -> M B) s a s1 ev1 :
  m s = (Ret a, s1, ev1) -> bind m f s = after ev1 (f a s1).
Proof. intros H. unfold bind. now rewrite H. Qed.

Lemma bind_raise_step {A B} (m : M A) (f : A -> M B) s e s1 ev1 :
  m s = (Raise e, s1, ev1) -> bind m f s = (Raise e, s1, ev1).
Proof. intros H. unfold bind. now rewrite H. Qed.

(** ** Rate limiter *)

Lemma Qltb_true (x y : Q) : Py.Qltb x y = true <-> x < y.
Proof.
  unfold Py.Qltb. rewrite negb_true_iff. split; intros H.
  - apply Qnot_le_lt. intros Hle. apply Qle_bool_iff in Hle. congruence.
  - destruct (Qle_bool y x) eqn:E; [|reflexivity].
    apply Qle_bool_iff in E. exfalso. apply (Qlt_not_le _ _ H E).
Qed.

Lemma Qltb_false (x y : Q) : Py.Qltb x y = false <-> y <= x.
Proof.
  unfold Py.Qltb. rewrite negb_false_iff. apply Qle_bool_iff.
Qed.

Lemma rate_limit_check_deny cfg now s :
  now - last_request_time s < RATE_LIMIT_SECONDS cfg ->
  rate_limit_check cfg now s =
    (Ret false, s, [st_warning_wait (RATE_LIMIT_SECONDS cfg)]).
Proof.
  intros H. apply Qltb_true in H.
  unfold rate_limit_check, bind, get. simpl. rewrite H. reflexivity.
Qed.

Lemma rate_limit_check_allow cfg now s :
  RATE_LIMIT_SECONDS cfg <= now - last_request_time s ->
  rate_limit_check cfg now s = (Ret true, set_last_request_time now s, []).
Proof.
  intros H. apply Qltb_false in H.
  unfold rate_limit_check, bind, get. simpl. rewrite H. reflexivity.
Qed.

(** C3. The gate answers false, with the state as it was, when
    [now - last_request_time < min_interval]; otherwise it answers true and
    the state differs from the old one in [last_request_time] only, which is
    [now].  So the state changes in the success case only. *)
Theorem rate_limit_check_spec (cfg : Config) (now : Q) (s : SessionState) :
  let r := rate_limit_check cfg now s in
  (now - last_request_time s < RATE_LIMIT_SECONDS cfg
   /\ result r = Ret false
   /\ state_of r = s)
  \/
  (~ now - last_request_time s < RATE_LIMIT_SECONDS cfg
   /\ result r = Ret true
   /\ last_request_time (state_of r) = now
   /\ state_of r = set_last_request_time now s).
Proof.
  intros r. subst r.
  destruct (Qlt_le_dec (now - last_request_time s) (RATE_LIMIT_SECONDS cfg))
    as [Hlt | Hle].
  - left. rewrite (rate_limit_check_deny _ _ _ Hlt). auto.
  - right. rewrite (rate_limit_check_allow _ _ _ Hle).
    repeat split. now apply Qle_not_lt.
Qed.

(** A gate that opens later in a trace opens at least one interval after the
    time the state held when the trace began. *)
Lemma gate_trace_after_last cfg nows :
  0 <= RATE_LIMIT_SECONDS cfg ->
  forall s j tj,
    nth_error (gate_trace cfg nows s) j = Some true ->
    nth_error nows j = Some tj ->
    RATE_LIMIT_SECONDS cfg <= tj - last_request_time s.
Proof.
  intros Hpos. induction nows as [|t nows IH]; intros s j tj Hj Ht.
  - destruct j; discriminate.
  - simpl in Hj.
    destruct (Qlt_le_dec (t - last_request_time s) (RATE_LIMIT_SECONDS cfg))
      as [Hlt | Hle].
    + rewrite (rate_limit_check_deny _ _ _ Hlt) in Hj. simpl in Hj.
      destruct j as [|j]; [discriminate|]. simpl in Hj, Ht.
      exact (IH _ _ _ Hj Ht).
    + rewrite (rate_limit_check_allow _ _ _ Hle) in Hj. simpl in Hj.
      destruct j as [|j]; simpl in Hj, Ht.
      * injection Ht as <-. exact Hle.
      * specialize (IH _ _ _ Hj Ht). simpl in IH. lra.
Qed.

(** C8. In a trace of gate calls on one state, two calls that both answer
    true are at least [min_interval] apart (for an interval that is not
    negative; the clock readings need not increase). *)
Theorem gate_successes_spaced (cfg : Config) (nows : list Q) (s : SessionState)
    (i j : nat) (ti tj : Q) :
  0 <= RATE_LIMIT_SECONDS cfg ->
  (i < j)%nat ->
  nth_error (gate_trace cfg nows s) i = Some true ->
  nth_error (gate_trace cfg nows s) j = Some true ->
  nth_error nows i = Some ti ->
  nth_error nows j = Some tj ->
  RATE_LIMIT_SECONDS cfg <= tj - ti.
Proof.
  intros Hpos. revert s i j.
  induction nows as [|t nows IH]; intros s i j Hij Hi Hj Hti Htj.
  - destruct i; discriminate.
  - destruct j as [|j]; [lia|].
    simpl in Hi, Hj.
    destruct (Qlt_le_dec (t - last_request_time s) (RATE_LIMIT_SECONDS cfg))
      as [Hlt | Hle].
    + rewrite (rate_limit_check_deny _ _ _ Hlt) in Hi, Hj. simpl in Hi, Hj.
      destruct i as [|i]; [discriminate|]. simpl in Hi, Hj, Hti, Htj.
      apply (IH s i j); auto. lia.
    + rewrite (rate_limit_check_allow _ _ _ Hle) in Hi, Hj. simpl in Hi, Hj.
      destruct i as [|i]; simpl in Hi, Hj, Hti, Htj.
      * injection Hti as <-.
        exact (gate_trace_after_last cfg nows Hpos _ _ _ Hj Htj).
      * apply (IH (set_last_request_time t s) i j); auto. lia.
Qed.

Lemma gate_successes_spaced_witness :
  gate_trace default_config [100; 100.5; 101; 101.2; 50; 103] initial_state
    = [true; false; true; false; false; true]
  /\ RATE_LIMIT_SECONDS default_config <= 103 - 100.
Proof.
  split; [reflexivity|].
  apply (gate_successes_spaced default_config
           [100; 100.5; 101; 101.2; 50; 103] initial_state 0 5 100 103);
    try reflexivity.
  - discriminate.
  - lia.
Defined.

(** ** Prompt builder *)

Lemma fold_left_append {A B} (f : A -> B) (l : list A) (h : list B) :
  fold_left (fun h x => Py.append h (f x)) l h = (h ++ map f l)%list.
Proof.
  revert h. induction l as [|x l IH]; intros h; simpl.
  - now rewrite app_nil_r.
  - rewrite IH. unfold Py.append. now rewrite <- app_assoc.
Qed.

(** With a positive window, [l[-n:]] drops all but the last [n] elements. *)
Lemma slice_from_neg {A} (n : Z) (l : list A) :
  (0 < n)%Z ->
  Py.slice_from (- n) l = skipn (length l - Z.to_nat n) l.
Proof.
  intros Hn. unfold Py.slice_from.
  destruct (Z.ltb_spec (- n) 0) as [_|H]; [|lia].
  f_equal. lia.
Qed.

Lemma slice_from_nil {A} (i : Z) : Py.slice_from i (@nil A) = [].
Proof. unfold Py.slice_from. apply skipn_nil. Qed.

Lemma slice_from_split {A} (n : Z) (l : list A) :
  (0 < n)%Z ->
  l = (firstn (length l - Z.to_nat n) l ++ Py.slice_from (- n) l)%list
  /\ (Z.of_nat (length (Py.slice_from (- n) l)) <= n)%Z.
Proof.
  intros Hn. rewrite slice_from_neg by assumption. split.
  - symmetry. apply firstn_skipn.
  - rewrite length_skipn. lia.
Qed.

Lemma build_prompt_with_history_eq cfg user_input s :
  build_prompt_with_history cfg user_input s =
    (Ret (Py.join Py.nl (prompt_lines cfg user_input s) ++ Py.nl ++ "Assistant:"),
     s, []).
Proof.
  unfold build_prompt_with_history, bind, get, ret, prompt_lines, system_lines.
  simpl. rewrite fold_left_append. unfold Py.append.
  destruct (Py.truthy_str (system_prompt s)); simpl;
    now rewrite <- ?app_assoc.
Qed.

Lemma format_message_by_role (m : Message) :
  format_message m = line_by_role m.
Proof. unfold format_message, line_by_role. now destruct (role m). Qed.

(** C2 (as the code has it). With system prompt "Be terse." and an empty
    log, the prompt for "Hi" has an empty line after the system line: the
    system line carries a line feed of its own and the lines are joined by
    line feeds. *)
Theorem build_prompt_be_terse (cfg : Config) (h : bool) (c : option Q)
    (style : string) (t : Q) :
  result (build_prompt_with_history cfg "Hi" (mkState [] h c "Be terse." style t))
  = Ret ("System: Be terse." ++ Py.nl ++ Py.nl ++ "Human: Hi" ++ Py.nl ++ "Assistant:").
Proof.
  rewrite build_prompt_with_history_eq. unfold prompt_lines. simpl.
  rewrite slice_from_nil. reflexivity.
Qed.

(** C2, counterexample: the prompt is not the one with a single line feed
    after the system line. *)
Lemma build_prompt_be_terse_not_single_newline :
  result (build_prompt_with_history default_config "Hi"
            (mkState [] true None "Be terse." "modern" 0))
  <> Ret ("System: Be terse." ++ Py.nl ++ "Human: Hi" ++ Py.nl ++ "Assistant:").
Proof. vm_compute. discriminate. Qed.

(** The prompt always ends with the cue line "Assistant:"; with a window
    of at least one message, the log splits into an older part, left out, and
    a recent part of at most [N] messages, and the prompt is the system line
    (if any), the recent messages rendered "Human: ..." or "Assistant: ..."
    by role, the new "Human: ..." line and the cue. *)
Theorem build_prompt_window (cfg : Config) (user_input : string) (s : SessionState) :
  (exists body,
     result (build_prompt_with_history cfg user_input s)
     = Ret (body ++ Py.nl ++ "Assistant:"))
  /\
  ((0 < MAX_HISTORY_MESSAGES cfg)%Z ->
   exists older recent,
     messages s = (older ++ recent)%list
     /\ (Z.of_nat (length recent) <= MAX_HISTORY_MESSAGES cfg)%Z
     /\ result (build_prompt_with_history cfg user_input s)
        = Ret (Py.join Py.nl
                 (system_lines s
                  ++ map line_by_role recent
                  ++ [("Human: " ++ user_input)%string])%list
               ++ Py.nl ++ "Assistant:")).
Proof.
  rewrite build_prompt_with_history_eq. split.
  - eexists. reflexivity.
  - intros HN.
    destruct (slice_from_split (MAX_HISTORY_MESSAGES cfg) (messages s) HN)
      as [Hsplit Hlen].
    eexists _, _. split; [exact Hsplit|]. split; [exact Hlen|].
    unfold result, prompt_lines. simpl.
    rewrite (map_ext _ _ format_message_by_role). reflexivity.
Qed.

Lemma build_prompt_window_witness :
  exists older recent,
    sample_log = (older ++ recent)%list
    /\ (Z.of_nat (length recent) <= 2)%Z
    /\ result (build_prompt_with_history (mkConfig 2 1) "d"
                 (mkState sample_log true None "" "modern" 0))
       = Ret (Py.join Py.nl
                (map line_by_role recent ++ ["Human: d"])%list
              ++ Py.nl ++ "Assistant:").
Proof.
  apply (proj2 (build_prompt_window (mkConfig 2 1) "d"
                  (mkState sample_log true None "" "modern" 0))).
  simpl. lia.
Defined.


(** ** Conversation controller: the outcome of one call, case by case *)

Section Controller.

Variables (cfg : Config) (now : Q) (api : Api).
Variables (user_input api_url model_name : string).
Variables (temperature : Q) (max_tokens : Z).

Let handle : M unit :=
  handle_user_input cfg now api user_input api_url model_name
                    temperature max_tokens.

Lemma send_request_to_model_raise s p e :
  api api_url p = Raise e ->
  send_request_to_model api api_url p s =
    match failure_report e with
    | Some report => (Ret None, s, requests_post api_url p :: report)
    | None => (Raise e, s, [requests_post api_url p])
    end.
Proof.
  intros H.
  unfold send_request_to_model, try_except, bind, emit, lift, failure_report.
  rewrite H. cbn -[isinstance String.append].
  destruct (isinstance (exn_class e) H_Timeout); [reflexivity|].
  destruct (isinstance (exn_class e) H_RequestException); [reflexivity|].
  destruct (isinstance (exn_class e) H_JSONDecodeError); reflexivity.
Qed.

Lemma send_request_to_model_ret s p j :
  api api_url p = Ret j ->
  send_request_to_model api api_url p s =
    (Ret (Some j), s, [requests_post api_url p]).
Proof.
  intros H.
  unfold send_request_to_model, try_except, bind, emit, lift.
  rewrite H. reflexivity.
Qed.

Lemma handle_user_input_denied s :
  now - last_request_time s < RATE_LIMIT_SECONDS cfg ->
  handle s = (Ret tt, s, [st_warning_wait (RATE_LIMIT_SECONDS cfg)]).
Proof.
  intros H. unfold handle, handle_user_input.
  rewrite (bind_ret_step _ _ _ _ _ _ (rate_limit_check_deny _ _ _ H)).
  reflexivity.
Qed.

Lemma handle_user_input_blank s :
  RATE_LIMIT_SECONDS cfg <= now - last_request_time s ->
  Py.strip user_input = "" ->
  handle s = (Ret tt, set_last_request_time now s,
              [st_warning "Please enter a non-empty message."]).
Proof.
  intros H Hb. unfold handle, handle_user_input.
  rewrite (bind_ret_step _ _ _ _ _ _ (rate_limit_check_allow _ _ _ H)).
  simpl. rewrite Hb. reflexivity.
Qed.

(** The call once the gate has opened on an input that is not blank. *)
Lemma handle_user_input_allowed s :
  RATE_LIMIT_SECONDS cfg <= now - last_request_time s ->
  Py.strip user_input <> "" ->
  let s1 := with_user_turn now user_input s in
  let p := sent_payload cfg user_input model_name temperature max_tokens s1 in
  let sent := [chat_write user user_input; requests_post api_url p] in
  handle s =
    match api api_url p with
    | Raise e =>
        match failure_report e with
        | Some report => (Ret tt, s1, (sent ++ report ++ [no_valid_response])%list)
        | None => (Raise e, s1, sent)
        end
    | Ret j =>
        match has_choices (Some j) with
        | Raise e => (Raise e, s1, sent)
        | Ret false => (Ret tt, s1, (sent ++ [no_valid_response])%list)
        | Ret true =>
            match first_choice_text j with
            | Raise e => (Raise e, s1, sent)
            | Ret text =>
                (Ret tt,
                 set_messages (Py.append (messages s1) (mkMessage assistant text)) s1,
                 (sent ++ [chat_write assistant text])%list)
            end
        end
    end.
Proof.
  intros H Hb s1 p sent.
  unfold handle, handle_user_input.
  rewrite (bind_ret_step _ _ _ _ _ _ (rate_limit_check_allow _ _ _ H)).
  rewrite after_nil. cbn [negb].
  destruct (Py.strip user_input) as [|c r] eqn:E; [congruence|].
  cbn [negb Py.truthy_str].
  erewrite bind_ret_step by (unfold modify; reflexivity).
  rewrite after_nil.
  erewrite bind_ret_step by (unfold emit; reflexivity).
  erewrite bind_ret_step by apply build_prompt_with_history_eq.
  rewrite after_nil. cbv beta.
  change (mkPayload _ max_tokens temperature model_name stop_sequences) with p.
  destruct (api api_url p) as [j|e] eqn:Eapi.
  - erewrite bind_ret_step by (apply send_request_to_model_ret; exact Eapi).
    cbv beta.
    destruct (has_choices (Some j)) as [[|]|e] eqn:Ech.
    + erewrite bind_ret_step by reflexivity.
      rewrite after_nil. cbv beta.
      destruct (first_choice_text j) as [text|e] eqn:Etxt.
      * erewrite bind_ret_step by reflexivity.
        reflexivity.
      * erewrite bind_raise_step by reflexivity.
        reflexivity.
    + erewrite bind_ret_step by reflexivity.
      reflexivity.
    + erewrite bind_raise_step by reflexivity.
      reflexivity.
  - pose proof (send_request_to_model_raise s1 p e Eapi) as Hsend.
    destruct (failure_report e) as [report|].
    + rewrite (bind_ret_step _ _ _ _ _ _ Hsend). reflexivity.
    + rewrite (bind_raise_step _ _ _ _ _ _ Hsend). reflexivity.
Qed.

End Controller.

(** ** Validation and the rate limiter (C1) *)

(** C1 (as the code has it). The rate limiter is consulted first, validation
    second: a blank input is refused with the wait warning and an untouched
    state when the gate is closed; when the gate is open the gate records
    [now] in [last_request_time], and only then is the input refused with the
    non-empty-message warning.  In both cases nothing is appended or sent. *)
Theorem blank_input_checked_after_rate_limit (cfg : Config) (now : Q) (api : Api)
    (user_input api_url model_name : string) (temperature : Q) (max_tokens : Z)
    (s : SessionState) :
  Py.strip user_input = "" ->
  let r := handle_user_input cfg now api user_input api_url model_name
                             temperature max_tokens s in
  (now - last_request_time s < RATE_LIMIT_SECONDS cfg
   /\ r = (Ret tt, s, [st_warning_wait (RATE_LIMIT_SECONDS cfg)]))
  \/
  (RATE_LIMIT_SECONDS cfg <= now - last_request_time s
   /\ r = (Ret tt, set_last_request_time now s,
           [st_warning "Please enter a non-empty message."])).
Proof.
  intros Hb r. subst r.
  destruct (Qlt_le_dec (now - last_request_time s) (RATE_LIMIT_SECONDS cfg))
    as [Hlt | Hle].
  - left. split; [exact Hlt|]. now apply handle_user_input_denied.
  - right. split; [exact Hle|]. now apply handle_user_input_blank.
Qed.

Lemma blank_input_checked_after_rate_limit_witness :
  handle_user_input default_config 100 echo_api "   " "url" "m" 0.7 512 terse_state
  = (Ret tt, set_last_request_time 100 terse_state,
     [st_warning "Please enter a non-empty message."]).
Proof.
  destruct (blank_input_checked_after_rate_limit default_config 100 echo_api
              "   " "url" "m" 0.7 512 terse_state eq_refl) as [[Hlt _] | [_ H]].
  - exfalso. vm_compute in Hlt. discriminate.
  - exact H.
Defined.

(** C1, counterexample: a blank input submitted while the gate is open
    is refused by validation, yet [last_request_time] has moved. *)
Lemma blank_input_moves_last_request_time :
  Py.strip "   " = ""
  /\ events (handle_user_input default_config 100 echo_api "   " "url" "m"
               0.7 512 terse_state)
     = [st_warning "Please enter a non-empty message."]
  /\ last_request_time
       (state_of (handle_user_input default_config 100 echo_api "   " "url" "m"
                    0.7 512 terse_state))
     <> last_request_time terse_state.
Proof.
  split; [reflexivity|]. split; [reflexivity|].
  vm_compute. discriminate.
Qed.

(** ** The user turn in the prompt (C10) *)

Lemma slice_from_neg_snoc {A} (n : Z) (l : list A) (x : A) :
  (0 < n)%Z ->
  Py.slice_from (- n) (l ++ [x])
  = (skipn (length l + 1 - Z.to_nat n) l ++ [x])%list.
Proof.
  intros Hn. rewrite slice_from_neg by assumption.
  rewrite length_app. simpl length. rewrite skipn_app.
  replace (length l + 1 - Z.to_nat n - length l)%nat with 0%nat by lia.
  reflexivity.
Qed.

(** C10. When the gate opens, the input is not blank and the window is at
    least one message, the trailing slice of the log taken by the builder
    ends with the user turn just appended, and the prompt that is sent ends
    with the same "Human: ..." line twice before the cue. *)
Theorem user_input_sent_twice (cfg : Config) (now : Q) (api : Api)
    (user_input api_url model_name : string) (temperature : Q) (max_tokens : Z)
    (s : SessionState) :
  (0 < MAX_HISTORY_MESSAGES cfg)%Z ->
  RATE_LIMIT_SECONDS cfg <= now - last_request_time s ->
  Py.strip user_input <> "" ->
  exists (recent : list Message) (rest : list Event),
    Py.slice_from (- MAX_HISTORY_MESSAGES cfg)
                  (Py.append (messages s) (mkMessage user user_input))
    = (recent ++ [mkMessage user user_input])%list
    /\ events (handle_user_input cfg now api user_input api_url model_name
                                 temperature max_tokens s)
       = chat_write user user_input
         :: requests_post api_url
              (mkPayload
                 (Py.join Py.nl
                    (system_lines s ++ map format_message recent
                     ++ [("Human: " ++ user_input)%string;
                         ("Human: " ++ user_input)%string])%list
                  ++ Py.nl ++ "Assistant:")
                 max_tokens temperature model_name stop_sequences)
         :: rest.
Proof.
  intros HN Hgate Hinput.
  exists (skipn (length (messages s) + 1 - Z.to_nat (MAX_HISTORY_MESSAGES cfg))
                (messages s)).
  assert (Hslice := slice_from_neg_snoc (MAX_HISTORY_MESSAGES cfg) (messages s)
                      (mkMessage user user_input) HN).
  assert (Hp : sent_payload cfg user_input model_name temperature max_tokens
                 (with_user_turn now user_input s)
               = mkPayload
                   (Py.join Py.nl
                      (system_lines s
                       ++ map format_message
                            (skipn (length (messages s) + 1
                                    - Z.to_nat (MAX_HISTORY_MESSAGES cfg))
                                   (messages s))
                       ++ [("Human: " ++ user_input)%string;
                           ("Human: " ++ user_input)%string])%list
                    ++ Py.nl ++ "Assistant:")
                   max_tokens temperature model_name stop_sequences).
  { unfold sent_payload, prompt_lines.
    change (messages (with_user_turn now user_input s))
      with (messages s ++ [mkMessage user user_input])%list.
    change (system_lines (with_user_turn now user_input s))
      with (system_lines s).
    rewrite Hslice, map_app, <- app_assoc. reflexivity. }
  rewrite (handle_user_input_allowed cfg now api user_input api_url model_name
             temperature max_tokens s Hgate Hinput).
  cbv zeta. rewrite Hp.
  destruct (api api_url _) as [j|e].
  - destruct (has_choices (Some j)) as [[|]|e].
    + destruct (first_choice_text j) as [text|e];
        eexists; (split; [exact Hslice | reflexivity]).
    + eexists; (split; [exact Hslice | reflexivity]).
    + eexists; (split; [exact Hslice | reflexivity]).
  - destruct (failure_report e) as [report|];
      eexists; (split; [exact Hslice | reflexivity]).
Qed.

Lemma user_input_sent_twice_witness :
  exists rest,
    events (handle_user_input default_config 100 echo_api "Hi" "url" "m"
                              0.7 512 terse_state)
    = chat_write user "Hi"
      :: requests_post "url"
           (mkPayload
              ("System: Be terse." ++ Py.nl ++ Py.nl ++ "Human: Hi" ++ Py.nl
               ++ "Human: Hi" ++ Py.nl ++ "Assistant:")
              512 0.7 "m" stop_sequences)
      :: rest.
Proof.
  destruct (user_input_sent_twice default_config 100 echo_api "Hi" "url" "m"
              0.7 512 terse_state) as (recent & rest & Hslice & Hev).
  - reflexivity.
  - vm_compute. discriminate.
  - discriminate.
  - exists rest. rewrite Hev.
    vm_compute in Hslice. destruct recent as [|m recent]; [reflexivity|].
    destruct recent; discriminate.
Defined.

(** ** Failures of the completion call (C4, C7) *)

Lemma failure_report_caught (e : PyExn) :
  isinstance (exn_class e) H_Timeout
  || isinstance (exn_class e) H_RequestException
  || isinstance (exn_class e) H_JSONDecodeError = true ->
  exists shown logged,
    failure_report e = Some [st_error shown; logger_error logged].
Proof.
  unfold failure_report. intros H.
  destruct (isinstance (exn_class e) H_Timeout); [eauto|].
  destruct (isinstance (exn_class e) H_RequestException); [eauto|].
  destruct (isinstance (exn_class e) H_JSONDecodeError); [eauto|].
  discriminate.
Qed.

(** C4 (as the code has it). Once the gate has opened on an input that is
    not blank: when the call raises an exception that the client catches (a
    timeout, another request error, an undecodable body), the controller
    shows an error message, writes one to the log and then shows the generic
    message; when the call returns a document in which no choice is found,
    it shows the generic message only and logs nothing.  In both cases the
    call ends normally, no assistant message is appended, and the state is
    the one the gate left (which holds [now]) with the user turn appended
    to the log. *)
Theorem completion_failure_reported (cfg : Config) (now : Q) (api : Api)
    (user_input api_url model_name : string) (temperature : Q) (max_tokens : Z)
    (s : SessionState) :
  RATE_LIMIT_SECONDS cfg <= now - last_request_time s ->
  Py.strip user_input <> "" ->
  let s1 := set_messages (messages s ++ [mkMessage user user_input])%list
                         (set_last_request_time now s) in
  let p := sent_payload cfg user_input model_name temperature max_tokens s1 in
  let r := handle_user_input cfg now api user_input api_url model_name
                             temperature max_tokens s in
  (forall e,
      api api_url p = Raise e ->
      isinstance (exn_class e) H_Timeout
      || isinstance (exn_class e) H_RequestException
      || isinstance (exn_class e) H_JSONDecodeError = true ->
      exists shown logged,
        r = (Ret tt, s1,
             [chat_write user user_input; requests_post api_url p;
              st_error shown; logger_error logged;
              st_error "Failed to get a valid response from the model."]))
  /\
  (forall j,
      api api_url p = Ret j ->
      has_choices (Some j) = Ret false ->
      r = (Ret tt, s1,
           [chat_write user user_input; requests_post api_url p;
            st_error "Failed to get a valid response from the model."])).
Proof.
  intros Hgate Hinput s1 p r. subst r.
  pose proof (handle_user_input_allowed cfg now api user_input api_url
                model_name temperature max_tokens s Hgate Hinput) as H.
  cbv zeta in H.
  change (with_user_turn now user_input s) with s1 in H.
  change (sent_payload cfg user_input model_name temperature max_tokens s1)
    with p in H.
  split.
  - intros e He Hcaught.
    destruct (failure_report_caught e Hcaught) as (shown & logged & Hrep).
    exists shown, logged. rewrite H, He, Hrep. reflexivity.
  - intros j Hj Hch. rewrite H, Hj, Hch. reflexivity.
Qed.

Lemma completion_failure_reported_witness :
  exists shown logged,
    handle_user_input default_config 100 timeout_api "Hi" "url" "m" 0.7 512
                      terse_state
    = (Ret tt,
       mkState [mkMessage user "Hi"] true None "Be terse." "modern" 100,
       [chat_write user "Hi";
        requests_post "url"
          (sent_payload default_config "Hi" "m" 0.7 512
             (mkState [mkMessage user "Hi"] true None "Be terse." "modern" 100));
        st_error shown;
        logger_error logged;
        st_error "Failed to get a valid response from the model."]).
Proof.
  assert (Hgate : RATE_LIMIT_SECONDS default_config
                  <= 100 - last_request_time terse_state)
    by (vm_compute; discriminate).
  assert (Hinput : Py.strip "Hi" <> "") by discriminate.
  exact (proj1 (completion_failure_reported default_config 100 timeout_api
                  "Hi" "url" "m" 0.7 512 terse_state Hgate Hinput)
               (mkExn requests_Timeout "Read timed out.")
               eq_refl eq_refl).
Defined.

(** C4, counterexample: a response that lacks the completion field is shown
    as an error but nothing is written to the log. *)
Lemma missing_field_not_logged :
  events (handle_user_input default_config 100 no_choices_api "Hi" "url" "m"
                            0.7 512 terse_state)
  = [chat_write user "Hi";
     requests_post "url"
       (sent_payload default_config "Hi" "m" 0.7 512
          (mkState [mkMessage user "Hi"] true None "Be terse." "modern" 100));
     st_error "Failed to get a valid response from the model."]
  /\ ~ (exists m,
          In (logger_error m)
             (events (handle_user_input default_config 100 no_choices_api "Hi"
                                        "url" "m" 0.7 512 terse_state))).
Proof.
  split; [reflexivity|].
  intros [m Hin]. vm_compute in Hin.
  destruct Hin as [H|[H|[H|[]]]]; discriminate.
Qed.

(** C7. A body that does not decode makes [response.json()] raise the
    [JSONDecodeError] of [requests], which is a [RequestException]: the
    clause for request errors catches it, the clause for decoding errors is
    not reached, and the report is the one of a connection fault. *)
Theorem undecodable_body_reported_as_api_error (api_url : string) (p : Payload)
    (s : SessionState) (msg : string) :
  send_request_to_model
    (fun _ _ => Raise (mkExn requests_JSONDecodeError msg)) api_url p s
  = (Ret None, s,
     [requests_post api_url p;
      st_error ("API Error: " ++ msg);
      logger_error ("API request failed: " ++ msg)])
  /\
  send_request_to_model
    (fun _ _ => Raise (mkExn requests_JSONDecodeError msg)) api_url p s
  = send_request_to_model
      (fun _ _ => Raise (mkExn requests_ConnectionError msg)) api_url p s.
Proof. split; reflexivity. Qed.

(** ** The message log (C6, C9) *)

Lemma log_extends_refl s : log_extends s s.
Proof. exists []. now rewrite app_nil_r. Qed.

Lemma log_extends_trans s1 s2 s3 :
  log_extends s1 s2 -> log_extends s2 s3 -> log_extends s1 s3.
Proof.
  intros [a Ha] [b Hb]. exists (a ++ b)%list.
  now rewrite Hb, Ha, app_assoc.
Qed.

Lemma state_of_after {A} ev (x : Res A * SessionState * list Event) :
  state_of (after ev x) = state_of x.
Proof. now destruct x as [[r s] ev']. Qed.

Lemma appends_only_ret {A} (a : A) : appends_only (ret a).
Proof. intros s. apply log_extends_refl. Qed.

Lemma appends_only_get : appends_only get.
Proof. intros s. apply log_extends_refl. Qed.

Lemma appends_only_emit e : appends_only (emit e).
Proof. intros s. apply log_extends_refl. Qed.

Lemma appends_only_lift {A} (r : Res A) : appends_only (lift r).
Proof. intros s. apply log_extends_refl. Qed.

Lemma appends_only_modify f :
  (forall s, log_extends s (f s)) -> appends_only (modify f).
Proof. intros H s. apply H. Qed.

Lemma appends_only_bind {A B} (m : M A) (f : A -> M B) :
  appends_only m -> (forall a, appends_only (f a)) -> appends_only (bind m f).
Proof.
  intros Hm Hf s. unfold bind. specialize (Hm s).
  destruct (m s) as [[[a|e] s1] ev1]; simpl in *.
  - rewrite state_of_after. eapply log_extends_trans; [exact Hm | apply Hf].
  - exact Hm.
Qed.

Lemma appends_only_try_except {A} (body : M A) handler :
  appends_only body ->
  (forall e h, handler e = Some h -> appends_only h) ->
  appends_only (try_except body handler).
Proof.
  intros Hb Hh s. unfold try_except. specialize (Hb s).
  destruct (body s) as [[[a|e] s1] ev1]; simpl in *.
  - exact Hb.
  - destruct (handler e) as [h|] eqn:E; simpl.
    + rewrite state_of_after.
      eapply log_extends_trans; [exact Hb | apply (Hh _ _ E)].
    + exact Hb.
Qed.

Lemma log_extends_append s m :
  log_extends s (set_messages (Py.append (messages s) m) s).
Proof. exists [m]. reflexivity. Qed.

Lemma log_extends_set_last_request_time s t :
  log_extends s (set_last_request_time t s).
Proof. exists []. simpl. now rewrite app_nil_r. Qed.

Lemma log_extends_set_system_prompt s p :
  log_extends s (set_system_prompt p s).
Proof. exists []. simpl. now rewrite app_nil_r. Qed.

Create HintDb appends.
#[local] Hint Resolve appends_only_ret appends_only_get appends_only_emit
  appends_only_lift log_extends_append log_extends_set_last_request_time
  log_extends_set_system_prompt : appends.

Ltac appends_only_step :=
  match goal with
  | |- appends_only (bind _ _) => apply appends_only_bind; [|intros ?]
  | |- appends_only (modify _) => apply appends_only_modify; intros ?
  | |- appends_only (if ?b then _ else _) => destruct b
  | |- appends_only (match ?x with _ => _ end) => destruct x
  | |- _ => solve [auto with appends]
  end.

Lemma rate_limit_check_appends_only cfg now :
  appends_only (rate_limit_check cfg now).
Proof. unfold rate_limit_check. repeat appends_only_step. Qed.

Lemma build_prompt_appends_only cfg user_input :
  appends_only (build_prompt_with_history cfg user_input).
Proof.
  intros s. rewrite build_prompt_with_history_eq. apply log_extends_refl.
Qed.

Lemma send_request_to_model_appends_only api api_url p :
  appends_only (send_request_to_model api api_url p).
Proof.
  unfold send_request_to_model. apply appends_only_try_except.
  - repeat appends_only_step.
  - intros e h H.
    destruct (isinstance (exn_class e) H_Timeout);
      [injection H as <-; repeat appends_only_step|].
    destruct (isinstance (exn_class e) H_RequestException);
      [injection H as <-; repeat appends_only_step|].
    destruct (isinstance (exn_class e) H_JSONDecodeError);
      [injection H as <-; repeat appends_only_step|].
    discriminate.
Qed.

#[local] Hint Resolve rate_limit_check_appends_only build_prompt_appends_only
  send_request_to_model_appends_only : appends.

Lemma handle_user_input_appends_only cfg now api user_input api_url model_name
    temperature max_tokens :
  appends_only (handle_user_input cfg now api user_input api_url model_name
                                  temperature max_tokens).
Proof. unfold handle_user_input. repeat appends_only_step. Qed.

#[local] Hint Resolve handle_user_input_appends_only : appends.

(** A run of the script in which the reset button is not pressed only
    appends to the log. *)
Lemma main_appends_only cfg t :
  is_reset t = false -> appends_only (main cfg t).
Proof.
  intros Hr. unfold main. apply appends_only_try_except.
  - unfold run_action. unfold is_reset in Hr.
    destruct (action t); try discriminate; repeat appends_only_step.
  - intros e h H. simpl in H. injection H as <-. repeat appends_only_step.
Qed.

(** C6. Over any sequence of runs without a reset, the log at the end is the
    log at the start followed by appended messages: what was there stays, in
    its order.  Building a prompt leaves the state, hence the log, as it
    was. *)
Theorem messages_append_only (cfg : Config) :
  (forall (ts : list Turn) (s : SessionState),
      existsb is_reset ts = false ->
      exists appended,
        messages (run_session cfg ts s) = (messages s ++ appended)%list)
  /\
  (forall (user_input : string) (s : SessionState),
      state_of (build_prompt_with_history cfg user_input s) = s).
Proof.
  split.
  - intros ts. induction ts as [|t ts IH]; intros s Hr; simpl.
    + apply log_extends_refl.
    + simpl in Hr. apply orb_false_iff in Hr. destruct Hr as [Ht Hts].
      apply (log_extends_trans s (state_of (main cfg t s))).
      * now apply main_appends_only.
      * now apply IH.
  - intros user_input s. now rewrite build_prompt_with_history_eq.
Qed.

Lemma messages_append_only_witness :
  exists appended,
    messages (run_session default_config sample_turns
                (mkState sample_log true None "Be terse." "modern" 0))
    = (sample_log ++ appended)%list.
Proof.
  apply (proj1 (messages_append_only default_config) sample_turns
               (mkState sample_log true None "Be terse." "modern" 0)).
  reflexivity.
Defined.

(** C9. The reset button empties the log and leaves every other field of
    the session state, the system prompt among them, as it was. *)
Theorem reset_clears_messages_only (cfg : Config) (s : SessionState)
    (now : Q) (api : Api) (api_url model_name : string)
    (temperature : Q) (max_tokens : Z) :
  let s' := state_of (main cfg (mkTurn ResetChat now api api_url model_name
                                       temperature max_tokens) s) in
  s' = state_of (reset_chat s)
  /\ messages s' = []
  /\ system_prompt s' = system_prompt s
  /\ last_request_time s' = last_request_time s
  /\ api_health s' = api_health s
  /\ last_api_check s' = last_api_check s
  /\ chat_style s' = chat_style s.
Proof. repeat split. Qed.

(** * Further properties of the code *)

(** ** White space and [strip] *)

Lemma lstrip_empty_iff (s : string) :
  Py.lstrip s = "" <-> all_whitespace s = true.
Proof.
  induction s as [|c s IH]; simpl.
  - tauto.
  - destruct (Py.isspace c); simpl; [exact IH|].
    split; discriminate.
Qed.

Lemma rstrip_empty_iff (s : string) :
  Py.rstrip s = "" <-> all_whitespace s = true.
Proof.
  induction s as [|c s IH]; simpl.
  - tauto.
  - destruct (Py.rstrip s) as [|c' r].
    + assert (Hs : all_whitespace s = true) by now apply IH.
      rewrite Hs, andb_true_r.
      destruct (Py.isspace c); split; congruence.
    + assert (Hs : all_whitespace s = false).
      { destruct (all_whitespace s); [|reflexivity].
        destruct IH as [_ IH]. discriminate (IH eq_refl). }
      rewrite Hs, andb_false_r. split; discriminate.
Qed.

Lemma all_whitespace_rstrip (s : string) :
  all_whitespace (Py.rstrip s) = all_whitespace s.
Proof.
  induction s as [|c s IH]; simpl; [reflexivity|].
  destruct (Py.rstrip s) as [|c' r] eqn:E.
  - assert (Hs : all_whitespace s = true) by now apply rstrip_empty_iff.
    rewrite Hs, andb_true_r.
    destruct (Py.isspace c) eqn:Ec; simpl; now rewrite ?Ec.
  - change (all_whitespace (String c (String c' r)))
      with (Py.isspace c && all_whitespace (String c' r)).
    now rewrite IH.
Qed.

Lemma strip_empty_iff (s : string) :
  Py.strip s = "" <-> all_whitespace s = true.
Proof.
  unfold Py.strip. now rewrite lstrip_empty_iff, all_whitespace_rstrip.
Qed.

Lemma lstrip_idempotent (s : string) : Py.lstrip (Py.lstrip s) = Py.lstrip s.
Proof.
  induction s as [|c s IH]; simpl; [reflexivity|].
  destruct (Py.isspace c) eqn:Ec; [exact IH|].
  simpl. now rewrite Ec.
Qed.

Lemma rstrip_cons (c : ascii) (s : string) :
  Py.rstrip (String c s) =
    match Py.rstrip s with
    | EmptyString => if Py.isspace c then EmptyString else String c EmptyString
    | r => String c r
    end.
Proof. reflexivity. Qed.

Lemma rstrip_idempotent (s : string) : Py.rstrip (Py.rstrip s) = Py.rstrip s.
Proof.
  induction s as [|c s IH]; [reflexivity|].
  rewrite rstrip_cons.
  destruct (Py.rstrip s) as [|c' r] eqn:E.
  - destruct (Py.isspace c) eqn:Ec; [reflexivity|].
    rewrite rstrip_cons. simpl Py.rstrip. now rewrite Ec.
  - rewrite rstrip_cons, IH. reflexivity.
Qed.

Lemma rstrip_lstrip (s : string) :
  Py.rstrip (Py.lstrip s) = Py.lstrip (Py.rstrip s).
Proof.
  induction s as [|c s IH]; [reflexivity|].
  rewrite rstrip_cons. simpl Py.lstrip at 1.
  destruct (Py.isspace c) eqn:Ec.
  - rewrite IH. destruct (Py.rstrip s) as [|c' r]; [reflexivity|].
    simpl Py.lstrip at 2. now rewrite Ec.
  - rewrite rstrip_cons.
    destruct (Py.rstrip s) as [|c' r]; simpl; now rewrite Ec.
Qed.

Lemma strip_idempotent (s : string) : Py.strip (Py.strip s) = Py.strip s.
Proof.
  unfold Py.strip.
  now rewrite rstrip_lstrip, rstrip_idempotent, lstrip_idempotent.
Qed.

Lemma first_choice_text_stripped (j : json) (t : string) :
  first_choice_text j = Ret t -> Py.strip t = t.
Proof.
  unfold first_choice_text, Dyn.rbind.
  destruct (Dyn.getitem j "choices") as [ch|]; [|discriminate].
  destruct (Dyn.getitem0 ch) as [c0|]; [|discriminate].
  destruct (Dyn.getitem c0 "text") as [x|]; [|discriminate].
  destruct x; simpl; try discriminate.
  intros H. injection H as <-. apply strip_idempotent.
Qed.

(** ** One call of the controller, all outcomes *)

Lemma count_posts_failure_report (e : PyExn) (report : list Event) :
  failure_report e = Some report -> count_posts report = 0%nat.
Proof.
  unfold failure_report. intros H.
  destruct (isinstance (exn_class e) H_Timeout); [now injection H as <-|].
  destruct (isinstance (exn_class e) H_RequestException); [now injection H as <-|].
  destruct (isinstance (exn_class e) H_JSONDecodeError); [now injection H as <-|].
  discriminate.
Qed.

Lemma count_posts_app (l1 l2 : list Event) :
  count_posts (l1 ++ l2) = (count_posts l1 + count_posts l2)%nat.
Proof. unfold count_posts. now rewrite filter_app, length_app. Qed.

(** The four ways a call can go: refused by the gate; refused by validation;
    accepted without an answer (the call failed, the response was not
    usable, or an exception escaped); accepted and answered. *)
Lemma handle_user_input_cases (cfg : Config) (now : Q) (api : Api)
    (user_input api_url model_name : string) (temperature : Q) (max_tokens : Z)
    (s : SessionState) :
  let r := handle_user_input cfg now api user_input api_url model_name
                             temperature max_tokens s in
  let s1 := with_user_turn now user_input s in
  let p := sent_payload cfg user_input model_name temperature max_tokens s1 in
  (now - last_request_time s < RATE_LIMIT_SECONDS cfg
   /\ r = (Ret tt, s, [st_warning_wait (RATE_LIMIT_SECONDS cfg)]))
  \/
  (RATE_LIMIT_SECONDS cfg <= now - last_request_time s
   /\ Py.strip user_input = ""
   /\ r = (Ret tt, set_last_request_time now s,
           [st_warning "Please enter a non-empty message."]))
  \/
  (RATE_LIMIT_SECONDS cfg <= now - last_request_time s
   /\ Py.strip user_input <> ""
   /\ exists res rest,
        r = (res, s1,
             chat_write user user_input :: requests_post api_url p :: rest)
        /\ count_posts rest = 0%nat
        /\ (res = Ret tt -> rest <> []))
  \/
  (RATE_LIMIT_SECONDS cfg <= now - last_request_time s
   /\ Py.strip user_input <> ""
   /\ exists text,
        Py.strip text = text
        /\ r = (Ret tt,
                set_messages (Py.append (messages s1) (mkMessage assistant text)) s1,
                [chat_write user user_input; requests_post api_url p;
                 chat_write assistant text])).
Proof.
  intros r s1 p. subst r.
  destruct (Qlt_le_dec (now - last_request_time s) (RATE_LIMIT_SECONDS cfg))
    as [Hlt | Hle].
  { left. split; [exact Hlt|]. now apply handle_user_input_denied. }
  right.
  destruct (string_dec (Py.strip user_input) "") as [Hb | Hb].
  { left. repeat split; try assumption. now apply handle_user_input_blank. }
  right.
  pose proof (handle_user_input_allowed cfg now api user_input api_url
                model_name temperature max_tokens s Hle Hb) as H.
  cbv zeta in H. fold s1 in H. fold p in H. rewrite H.
  destruct (api api_url p) as [j|e].
  - destruct (has_choices (Some j)) as [[|]|e].
    + destruct (first_choice_text j) as [text|e] eqn:Etext.
      * right. repeat split; try assumption.
        exists text. split; [|reflexivity].
        exact (first_choice_text_stripped _ _ Etext).
      * left. repeat split; try assumption.
        exists (Raise e), []. repeat split. discriminate.
    + left. repeat split; try assumption.
      exists (Ret tt), [no_valid_response]. repeat split. discriminate.
    + left. repeat split; try assumption.
      exists (Raise e), []. repeat split. discriminate.
  - left. repeat split; try assumption.
    destruct (failure_report e) as [report|] eqn:Erep.
    + exists (Ret tt), (report ++ [no_valid_response])%list. repeat split.
      * rewrite count_posts_app, (count_posts_failure_report _ _ Erep).
        reflexivity.
      * intros _ Hnil. apply app_eq_nil in Hnil. destruct Hnil; discriminate.
    + exists (Raise e), []. repeat split. discriminate.
Qed.

Ltac controller_cases cfg now api user_input api_url model_name temperature
                      max_tokens s :=
  let H := fresh "Hcases" in
  pose proof (handle_user_input_cases cfg now api user_input api_url model_name
                temperature max_tokens s) as H;
  cbv zeta in H;
  destruct H as [(?Hlt & ?Hr)
                | [(?Hle & ?Hb & ?Hr)
                  | [(?Hle & ?Hb & ?res & ?rest & ?Hr & ?Hcnt & ?Hne)
                    | (?Hle & ?Hb & ?text & ?Htext & ?Hr)]]].

(** With the gate open, validation refuses an input exactly when all its
    characters are white space (the empty input included). *)
Theorem validation_refuses_exactly_whitespace (cfg : Config) (now : Q) (api : Api)
    (user_input api_url model_name : string) (temperature : Q) (max_tokens : Z)
    (s : SessionState) :
  RATE_LIMIT_SECONDS cfg <= now - last_request_time s ->
  (all_whitespace user_input = true
   <-> handle_user_input cfg now api user_input api_url model_name
                         temperature max_tokens s
       = (Ret tt, set_last_request_time now s,
          [st_warning "Please enter a non-empty message."])).
Proof.
  intros Hgate. split.
  - intros Hws. apply handle_user_input_blank; [exact Hgate|].
    now apply strip_empty_iff.
  - intros H. apply strip_empty_iff.
    controller_cases cfg now api user_input api_url model_name temperature
                     max_tokens s.
    + exfalso. exact (Qlt_not_le _ _ Hlt Hgate).
    + exact Hb.
    + rewrite H in Hr. discriminate.
    + rewrite H in Hr. discriminate.
Qed.

Lemma validation_refuses_exactly_whitespace_witness :
  all_whitespace ("  " ++ Py.nl) = true
  <-> handle_user_input default_config 100 echo_api ("  " ++ Py.nl) "url" "m"
                        0.7 512 terse_state
      = (Ret tt, set_last_request_time 100 terse_state,
         [st_warning "Please enter a non-empty message."]).
Proof.
  apply validation_refuses_exactly_whitespace.
  vm_compute. discriminate.
Defined.

(** A turn refused by the gate is dropped whole, whatever the input: the
    state, the log included, is as before and nothing is sent. *)
Theorem denied_turn_is_dropped (cfg : Config) (now : Q) (api : Api)
    (user_input api_url model_name : string) (temperature : Q) (max_tokens : Z)
    (s : SessionState) :
  now - last_request_time s < RATE_LIMIT_SECONDS cfg ->
  let r := handle_user_input cfg now api user_input api_url model_name
                             temperature max_tokens s in
  result r = Ret tt
  /\ state_of r = s
  /\ events r = [st_warning_wait (RATE_LIMIT_SECONDS cfg)]
  /\ count_posts (events r) = 0%nat.
Proof.
  intros Hlt r. subst r.
  rewrite (handle_user_input_denied cfg now api user_input api_url model_name
             temperature max_tokens s Hlt).
  repeat split.
Qed.

Lemma denied_turn_is_dropped_witness :
  state_of (handle_user_input default_config 100.5 echo_api "Hello" "url" "m"
              0.7 512 (set_last_request_time 100 terse_state))
  = set_last_request_time 100 terse_state.
Proof.
  apply (denied_turn_is_dropped default_config 100.5 echo_api "Hello" "url" "m"
           0.7 512 (set_last_request_time 100 terse_state)).
  reflexivity.
Defined.

(** A call sends at most one request, never a second one after a failure;
    it sends one exactly when the gate is open and the input is not blank. *)
Theorem at_most_one_request (cfg : Config) (now : Q) (api : Api)
    (user_input api_url model_name : string) (temperature : Q) (max_tokens : Z)
    (s : SessionState) :
  let r := handle_user_input cfg now api user_input api_url model_name
                             temperature max_tokens s in
  (count_posts (events r) <= 1)%nat
  /\ (count_posts (events r) = 1%nat
      <-> RATE_LIMIT_SECONDS cfg <= now - last_request_time s
          /\ Py.strip user_input <> "").
Proof.
  intros r. subst r.
  controller_cases cfg now api user_input api_url model_name temperature
                   max_tokens s; rewrite Hr; unfold events; simpl snd.
  - change (count_posts [st_warning_wait (RATE_LIMIT_SECONDS cfg)]) with 0%nat.
    split; [lia|]. split; [discriminate|].
    intros [Hle _]. exfalso. exact (Qlt_not_le _ _ Hlt Hle).
  - change (count_posts [st_warning "Please enter a non-empty message."])
      with 0%nat.
    split; [lia|]. split; [discriminate|].
    intros [_ Hnb]. contradiction.
  - change (count_posts (chat_write user user_input :: requests_post api_url
              (sent_payload cfg user_input model_name temperature max_tokens
                 (with_user_turn now user_input s)) :: rest))
      with (S (count_posts rest)).
    rewrite Hcnt. split; [lia|]. split; auto.
  - change (count_posts _) with 1%nat. split; [lia|]. split; auto.
Qed.

(** A call leaves the system prompt and the other settings of the session
    as they were: it touches the log and the time of the last request
    only. *)
Theorem handle_user_input_keeps_settings (cfg : Config) (now : Q) (api : Api)
    (user_input api_url model_name : string) (temperature : Q) (max_tokens : Z)
    (s : SessionState) :
  same_settings s
    (state_of (handle_user_input cfg now api user_input api_url model_name
                                 temperature max_tokens s)).
Proof.
  controller_cases cfg now api user_input api_url model_name temperature
                   max_tokens s; rewrite Hr; repeat split.
Qed.

(** What a call appends to the log: nothing, or the user turn alone, or the
    user turn and the answer with its surrounding white space removed.
    Nothing else of the log changes. *)
Theorem turn_appends_user_then_assistant (cfg : Config) (now : Q) (api : Api)
    (user_input api_url model_name : string) (temperature : Q) (max_tokens : Z)
    (s : SessionState) :
  let r := handle_user_input cfg now api user_input api_url model_name
                             temperature max_tokens s in
  messages (state_of r) = messages s
  \/ (Py.strip user_input <> ""
      /\ messages (state_of r)
         = (messages s ++ [mkMessage user user_input])%list)
  \/ (Py.strip user_input <> ""
      /\ exists text,
           Py.strip text = text
           /\ result r = Ret tt
           /\ messages (state_of r)
              = (messages s ++ [mkMessage user user_input;
                                mkMessage assistant text])%list).
Proof.
  intros r. subst r.
  controller_cases cfg now api user_input api_url model_name temperature
                   max_tokens s; rewrite Hr.
  - left. reflexivity.
  - left. reflexivity.
  - right. left. split; [exact Hb | reflexivity].
  - right. right. split; [exact Hb|]. exists text. repeat split; [exact Htext|].
    unfold state_of, with_user_turn, Py.append. simpl.
    now rewrite <- app_assoc.
Qed.

(** An exception escapes a call only after the user turn has been appended
    and the request sent: the state is then the one with the user turn at
    the end of the log and no answer. *)
Theorem exception_leaves_user_turn (cfg : Config) (now : Q) (api : Api)
    (user_input api_url model_name : string) (temperature : Q) (max_tokens : Z)
    (s : SessionState) (e : PyExn) :
  result (handle_user_input cfg now api user_input api_url model_name
                            temperature max_tokens s) = Raise e ->
  let s1 := with_user_turn now user_input s in
  handle_user_input cfg now api user_input api_url model_name
                    temperature max_tokens s
  = (Raise e, s1,
     [chat_write user user_input;
      requests_post api_url
        (sent_payload cfg user_input model_name temperature max_tokens s1)])
  /\ messages s1 = (messages s ++ [mkMessage user user_input])%list.
Proof.
  intros Hres s1. split; [|reflexivity]. subst s1.
  controller_cases cfg now api user_input api_url model_name temperature
                   max_tokens s; rewrite Hr in Hres |- *;
    unfold result in Hres; simpl in Hres; try discriminate.
  subst res. destruct rest as [|x rest]; [reflexivity|].
  (* a raised call leaves nothing after the request *)
  exfalso.
  pose proof (handle_user_input_allowed cfg now api user_input api_url
                model_name temperature max_tokens s Hle Hb) as H.
  cbv zeta in H. rewrite Hr in H.
  destruct (api api_url _) as [j|e'].
  - destruct (has_choices (Some j)) as [[|]|e''].
    + destruct (first_choice_text j); discriminate.
    + discriminate.
    + discriminate.
  - destruct (failure_report e'); discriminate.
Qed.

Lemma exception_leaves_user_turn_witness :
  messages
    (state_of (handle_user_input default_config 100 textless_api "Hi" "url" "m"
                                 0.7 512 terse_state))
  = [mkMessage user "Hi"].
Proof.
  destruct (exception_leaves_user_turn default_config 100 textless_api "Hi"
              "url" "m" 0.7 512 terse_state (mkExn KeyError "'text'") eq_refl)
    as [H _].
  rewrite H. reflexivity.
Defined.

(** ** The answer of the endpoint *)

(** For a response that is a JSON object the test of line 232 never raises:
    it holds exactly when the key "choices" is there with a value that
    counts as true (so not for [[]], [null], [""], [0], [false], [{}]). *)
Theorem has_choices_of_object (kv : list (string * json)) :
  has_choices (Some (JObj kv))
  = Ret (match Dyn.lookup "choices" kv with
         | Some ch => Dyn.truthy ch
         | None => false
         end).
Proof.
  unfold has_choices, Dyn.truthy at 1.
  destruct kv as [|[k v] kv]; [reflexivity|].
  unfold Dyn.contains, Dyn.getitem, Dyn.rbind.
  destruct (Dyn.lookup "choices" ((k, v) :: kv)); reflexivity.
Qed.

Lemma first_choice_text_of_object (kv kv0 : list (string * json))
    (others : list json) (text : string) :
  Dyn.lookup "choices" kv = Some (JArr (JObj kv0 :: others)) ->
  Dyn.lookup "text" kv0 = Some (JStr text) ->
  first_choice_text (JObj kv) = Ret (Py.strip text).
Proof.
  intros Hchoices Htext. unfold first_choice_text.
  unfold Dyn.getitem at 1. rewrite Hchoices.
  cbn [Dyn.rbind Dyn.getitem0 Dyn.getitem]. rewrite Htext. reflexivity.
Qed.

(** An accepted turn whose response is an object with a list of choices, the
    first of which is an object with a string "text": the log gains the user
    turn and then the answer, stripped; later choices and other keys are
    ignored. *)
Theorem answered_turn (cfg : Config) (now : Q) (api : Api)
    (user_input api_url model_name : string) (temperature : Q) (max_tokens : Z)
    (s : SessionState) (kv kv0 : list (string * json)) (others : list json)
    (text : string) :
  RATE_LIMIT_SECONDS cfg <= now - last_request_time s ->
  Py.strip user_input <> "" ->
  (forall p, api api_url p = Ret (JObj kv)) ->
  Dyn.lookup "choices" kv = Some (JArr (JObj kv0 :: others)) ->
  Dyn.lookup "text" kv0 = Some (JStr text) ->
  let r := handle_user_input cfg now api user_input api_url model_name
                             temperature max_tokens s in
  result r = Ret tt
  /\ messages (state_of r)
     = (messages s ++ [mkMessage user user_input;
                       mkMessage assistant (Py.strip text)])%list
  /\ last_request_time (state_of r) = now
  /\ exists p,
       events r = [chat_write user user_input; requests_post api_url p;
                   chat_write assistant (Py.strip text)].
Proof.
  intros Hgate Hinput Hapi Hchoices Htext r. subst r.
  rewrite (handle_user_input_allowed cfg now api user_input api_url model_name
             temperature max_tokens s Hgate Hinput).
  cbv zeta. rewrite Hapi, has_choices_of_object, Hchoices.
  cbn [Dyn.truthy].
  rewrite (first_choice_text_of_object _ _ _ _ Hchoices Htext).
  split; [reflexivity|]. split; [|split; [reflexivity|]].
  - unfold state_of, with_user_turn, Py.append. simpl.
    now rewrite <- app_assoc.
  - eexists. reflexivity.
Qed.

Lemma answered_turn_witness :
  messages
    (state_of (handle_user_input default_config 100 echo_api "Hello" "url" "m"
                                 0.7 512 terse_state))
  = [mkMessage user "Hello"; mkMessage assistant "hi"].
Proof.
  refine (proj1 (proj2 (answered_turn default_config 100 echo_api "Hello" "url"
                          "m" 0.7 512 terse_state
                          [("choices", JArr [JObj [("text", JStr " hi ")]])]
                          [("text", JStr " hi ")] [] " hi " _ _ _ _ _))).
  - vm_compute. discriminate.
  - discriminate.
  - reflexivity.
  - reflexivity.
  - reflexivity.
Defined.

(** ** The top level *)

Lemma main_state (cfg : Config) (t : Turn) (s : SessionState) :
  state_of (main cfg t s) = state_of (run_action cfg t s).
Proof.
  unfold main, try_except.
  destruct (run_action cfg t s) as [[[a|e] s1] ev]; [reflexivity|].
  destruct (exn_class e); reflexivity.
Qed.

(** ** The history window at its edges *)

(** With a window of [N >= 1] the prompt carries exactly the last
    [min N (length of the log)] messages: the whole log when it is short,
    the [N] most recent ones otherwise. *)
Theorem build_prompt_exact_window (cfg : Config) (user_input : string)
    (s : SessionState) :
  (0 < MAX_HISTORY_MESSAGES cfg)%Z ->
  exists older recent,
    messages s = (older ++ recent)%list
    /\ length recent
       = Nat.min (Z.to_nat (MAX_HISTORY_MESSAGES cfg)) (length (messages s))
    /\ result (build_prompt_with_history cfg user_input s)
       = Ret (Py.join Py.nl
                (system_lines s ++ map format_message recent
                 ++ [("Human: " ++ user_input)%string])%list
              ++ Py.nl ++ "Assistant:").
Proof.
  intros HN. rewrite build_prompt_with_history_eq.
  exists (firstn (length (messages s) - Z.to_nat (MAX_HISTORY_MESSAGES cfg))
                 (messages s)),
         (Py.slice_from (- MAX_HISTORY_MESSAGES cfg) (messages s)).
  split; [apply (slice_from_split _ _ HN)|]. split; [|reflexivity].
  rewrite slice_from_neg by assumption. rewrite length_skipn. lia.
Qed.

Lemma build_prompt_exact_window_witness :
  exists older recent,
    sample_log = (older ++ recent)%list
    /\ length recent = 2%nat
    /\ result (build_prompt_with_history (mkConfig 2 1) "d"
                 (mkState sample_log true None "" "modern" 0))
       = Ret (Py.join Py.nl
                (map format_message recent ++ ["Human: d"])%list
              ++ Py.nl ++ "Assistant:").
Proof.
  apply (build_prompt_exact_window (mkConfig 2 1) "d"
           (mkState sample_log true None "" "modern" 0)).
  simpl. lia.
Defined.

Lemma slice_from_nonneg {A} (n : Z) (l : list A) :
  (0 <= n)%Z -> Py.slice_from n l = skipn (Z.to_nat n) l.
Proof.
  intros Hn. unfold Py.slice_from.
  destruct (Z.ltb_spec n 0) as [H|_]; [lia|].
  destruct (Z.le_gt_cases n (Z.of_nat (length l))) as [Hle|Hgt].
  - now rewrite Z.min_l by assumption.
  - rewrite Z.min_r by lia. rewrite Nat2Z.id.
    rewrite !skipn_all2 by lia. reflexivity.
Qed.

(** A window of 0 does not give an empty history: [messages[-0:]] is the
    whole log, and every message goes into the prompt.  A negative window
    [-k] leaves out the [k] oldest messages and keeps all the others. *)
Theorem build_prompt_nonpositive_window (cfg : Config) (user_input : string)
    (s : SessionState) :
  (MAX_HISTORY_MESSAGES cfg <= 0)%Z ->
  result (build_prompt_with_history cfg user_input s)
  = Ret (Py.join Py.nl
           (system_lines s
            ++ map format_message
                 (skipn (Z.to_nat (- MAX_HISTORY_MESSAGES cfg)) (messages s))
            ++ [("Human: " ++ user_input)%string])%list
         ++ Py.nl ++ "Assistant:").
Proof.
  intros HN. rewrite build_prompt_with_history_eq.
  unfold result, prompt_lines. simpl.
  rewrite slice_from_nonneg by lia. reflexivity.
Qed.

Lemma build_prompt_nonpositive_window_witness :
  result (build_prompt_with_history (mkConfig 0 1) "d"
            (mkState sample_log true None "" "modern" 0))
  = Ret (Py.join Py.nl
           (map format_message sample_log ++ ["Human: d"])%list
         ++ Py.nl ++ "Assistant:").
Proof.
  apply (build_prompt_nonpositive_window (mkConfig 0 1) "d"
           (mkState sample_log true None "" "modern" 0)).
  simpl. lia.
Defined.

(** ** The rate limiter within a session *)

(** Once the gate has opened for a call, the time of the last request is
    [now] whatever became of the call (blank input, failed request, escaped
    exception, answer): a call that follows within the interval is dropped
    by the gate. *)
Theorem accepted_call_blocks_the_next (cfg : Config) (now now' : Q)
    (api api' : Api) (user_input user_input' api_url model_name : string)
    (temperature : Q) (max_tokens : Z) (s : SessionState) :
  RATE_LIMIT_SECONDS cfg <= now - last_request_time s ->
  now' - now < RATE_LIMIT_SECONDS cfg ->
  let s' := state_of (handle_user_input cfg now api user_input api_url
                        model_name temperature max_tokens s) in
  last_request_time s' = now
  /\ handle_user_input cfg now' api' user_input' api_url model_name
                       temperature max_tokens s'
     = (Ret tt, s', [st_warning_wait (RATE_LIMIT_SECONDS cfg)]).
Proof.
  intros Hgate Hsoon s'.
  assert (Hlast : last_request_time s' = now).
  { subst s'.
    controller_cases cfg now api user_input api_url model_name temperature
                     max_tokens s; rewrite Hr; try reflexivity.
    exfalso. exact (Qlt_not_le _ _ Hlt Hgate). }
  split; [exact Hlast|].
  apply handle_user_input_denied. now rewrite Hlast.
Qed.

Lemma accepted_call_blocks_the_next_witness :
  events (handle_user_input default_config 100.5 echo_api "Again" "url" "m"
            0.7 512
            (state_of (handle_user_input default_config 100 timeout_api "Hi"
                         "url" "m" 0.7 512 terse_state)))
  = [st_warning_wait 1].
Proof.
  destruct (accepted_call_blocks_the_next default_config 100 100.5
              timeout_api echo_api "Hi" "Again" "url" "m" 0.7 512 terse_state)
    as [_ H].
  - vm_compute. discriminate.
  - reflexivity.
  - rewrite H. reflexivity.
Defined.

(** Refused attempts cost nothing: after any number of calls that the gate
    refuses, a call one interval after the last accepted one is accepted. *)
Theorem denials_do_not_postpone (cfg : Config) (attempts : list Q) (t : Q)
    (s : SessionState) :
  Forall (fun a => a - last_request_time s < RATE_LIMIT_SECONDS cfg) attempts ->
  RATE_LIMIT_SECONDS cfg <= t - last_request_time s ->
  gate_trace cfg (attempts ++ [t]) s
  = (repeat false (length attempts) ++ [true])%list.
Proof.
  intros Hden Ht. induction Hden as [|a attempts Ha _ IH]; simpl.
  - now rewrite (rate_limit_check_allow _ _ _ Ht).
  - rewrite (rate_limit_check_deny _ _ _ Ha). simpl.
    change (state_of (Ret false, s, [st_warning_wait (RATE_LIMIT_SECONDS cfg)]))
      with s.
    now rewrite IH.
Qed.

Lemma denials_do_not_postpone_witness :
  gate_trace default_config [100.2; 100.5; 100.9; 101]
             (set_last_request_time 100 terse_state)
  = [false; false; false; true].
Proof.
  apply (denials_do_not_postpone default_config [100.2; 100.5; 100.9] 101
           (set_last_request_time 100 terse_state)).
  - repeat constructor.
  - vm_compute. discriminate.
Defined.

(** ** Invariants of a session *)

Section LogInvariant.

Variable I : list Message -> Prop.
Hypothesis I_empty : I [].
Hypothesis I_user :
  forall l u, I l -> Py.strip u <> "" -> I (l ++ [mkMessage user u])%list.
Hypothesis I_answer :
  forall l u x,
    I l -> Py.strip u <> "" -> Py.strip x = x ->
    I (l ++ [mkMessage user u; mkMessage assistant x])%list.

Lemma handle_user_input_log_invariant cfg now api user_input api_url model_name
    temperature max_tokens s :
  I (messages s) ->
  I (messages (state_of (handle_user_input cfg now api user_input api_url
                           model_name temperature max_tokens s))).
Proof.
  intros Hs.
  controller_cases cfg now api user_input api_url model_name temperature
                   max_tokens s; rewrite Hr.
  - exact Hs.
  - exact Hs.
  - apply I_user; assumption.
  - unfold state_of, with_user_turn, Py.append. simpl.
    rewrite <- app_assoc. apply I_answer; assumption.
Qed.

Lemma run_action_log_invariant cfg t s :
  I (messages s) -> I (messages (state_of (run_action cfg t s))).
Proof.
  intros Hs. unfold run_action.
  destruct (action t) as [text|n| |text].
  - exact Hs.
  - destruct (nth_error PREDEFINED_PROMPTS n).
    + now apply handle_user_input_log_invariant.
    + exact Hs.
  - exact I_empty.
  - destruct (Py.truthy_str text).
    + now apply handle_user_input_log_invariant.
    + exact Hs.
Qed.

Lemma run_session_log_invariant cfg ts :
  forall s, I (messages s) -> I (messages (run_session cfg ts s)).
Proof.
  induction ts as [|t ts IH]; intros s Hs; simpl; [exact Hs|].
  apply IH. rewrite main_state. now apply run_action_log_invariant.
Qed.

End LogInvariant.

Lemma answers_follow_questions_nil : answers_follow_questions [].
Proof. intros i a H. destruct i; discriminate. Qed.

Lemma answers_follow_questions_user l u :
  answers_follow_questions l ->
  answers_follow_questions (l ++ [mkMessage user u]).
Proof.
  intros Hl i a Hi Ha.
  destruct (Nat.lt_ge_cases i (length l)) as [Hlt|Hge].
  - rewrite nth_error_app1 in Hi by assumption.
    destruct (Hl i a Hi Ha) as (q & Hpos & Hq & Hrole).
    exists q. repeat split; try assumption.
    rewrite nth_error_app1 by lia. exact Hq.
  - rewrite nth_error_app2 in Hi by assumption.
    destruct (i - length l)%nat as [|[|k]]; simpl in Hi; try discriminate.
    injection Hi as <-. discriminate.
Qed.

Lemma answers_follow_questions_answer l u x :
  answers_follow_questions l ->
  answers_follow_questions (l ++ [mkMessage user u; mkMessage assistant x]).
Proof.
  intros Hl i a Hi Ha.
  destruct (Nat.lt_ge_cases i (length l)) as [Hlt|Hge].
  - rewrite nth_error_app1 in Hi by assumption.
    destruct (Hl i a Hi Ha) as (q & Hpos & Hq & Hrole).
    exists q. repeat split; try assumption.
    rewrite nth_error_app1 by lia. exact Hq.
  - rewrite nth_error_app2 in Hi by assumption.
    destruct (i - length l)%nat as [|[|k]] eqn:E; simpl in Hi.
    + injection Hi as <-. discriminate.
    + exists (mkMessage user u). split; [lia|]. split; [|reflexivity].
      rewrite nth_error_app2 by lia.
      replace (i - 1 - length l)%nat with 0%nat by lia. reflexivity.
    + destruct k; discriminate.
Qed.

(** In a log in which every assistant message stands right after a user
    message, that stays so over any sequence of runs, resets and failed
    requests included: the controller never stores two answers in a row nor
    an answer at the head of the log. *)
Theorem session_answers_follow_questions (cfg : Config) (ts : list Turn)
    (s : SessionState) :
  answers_follow_questions (messages s) ->
  answers_follow_questions (messages (run_session cfg ts s)).
Proof.
  apply run_session_log_invariant.
  - exact answers_follow_questions_nil.
  - intros l u Hl _. now apply answers_follow_questions_user.
  - intros l u x Hl _ _. now apply answers_follow_questions_answer.
Qed.

Lemma session_answers_follow_questions_witness :
  answers_follow_questions
    (messages (run_session default_config sample_turns initial_state)).
Proof.
  apply session_answers_follow_questions.
  intros i a H. destruct i; discriminate.
Defined.

(** In a log in which no user message is blank and no assistant message has
    surrounding white space, that stays so over any sequence of runs: only
    validated inputs and stripped answers are stored. *)
Theorem session_contents_checked (cfg : Config) (ts : list Turn)
    (s : SessionState) :
  Forall content_checked (messages s) ->
  Forall content_checked (messages (run_session cfg ts s)).
Proof.
  apply run_session_log_invariant.
  - constructor.
  - intros l u Hl Hu. apply Forall_app. split; [exact Hl|].
    repeat constructor. exact Hu.
  - intros l u x Hl Hu Hx. apply Forall_app. split; [exact Hl|].
    repeat constructor; assumption.
Qed.

Lemma session_contents_checked_witness :
  Forall content_checked
    (messages (run_session default_config sample_turns initial_state)).
Proof.
  apply session_contents_checked. constructor.
Defined.

Lemma handle_user_input_last_request_time cfg now api user_input api_url
    model_name temperature max_tokens s :
  let s' := state_of (handle_user_input cfg now api user_input api_url
                        model_name temperature max_tokens s) in
  last_request_time s' = last_request_time s
  \/ (last_request_time s' = now
      /\ RATE_LIMIT_SECONDS cfg <= now - last_request_time s).
Proof.
  intros s'. subst s'.
  controller_cases cfg now api user_input api_url model_name temperature
                   max_tokens s; rewrite Hr; auto.
Qed.

Lemma run_action_last_request_time cfg t s :
  0 <= RATE_LIMIT_SECONDS cfg ->
  last_request_time s <= last_request_time (state_of (run_action cfg t s)).
Proof.
  intros Hpos.
  assert (Hh : forall text,
             last_request_time s
             <= last_request_time
                  (state_of (handle_user_input cfg (now t) (api t) text
                               (api_url t) (model_name t) (turn_temperature t)
                               (turn_max_tokens t) s))).
  { intros text.
    destruct (handle_user_input_last_request_time cfg (now t) (api t) text
                (api_url t) (model_name t) (turn_temperature t)
                (turn_max_tokens t) s) as [H | [H Hle]];
      rewrite H; [apply Qle_refl | lra]. }
  unfold run_action.
  destruct (action t) as [text|n| |text].
  - apply Qle_refl.
  - destruct (nth_error PREDEFINED_PROMPTS n); [apply Hh | apply Qle_refl].
  - apply Qle_refl.
  - destruct (Py.truthy_str text); [apply Hh | apply Qle_refl].
Qed.

(** With an interval that is not negative, the time of the last request
    never moves back over a session, even when the clock does: a reading
    earlier than the stored time is refused by the gate. *)
Theorem last_request_time_never_decreases (cfg : Config) (ts : list Turn)
    (s : SessionState) :
  0 <= RATE_LIMIT_SECONDS cfg ->
  last_request_time s <= last_request_time (run_session cfg ts s).
Proof.
  intros Hpos. revert s.
  induction ts as [|t ts IH]; intros s; simpl; [apply Qle_refl|].
  eapply Qle_trans; [|apply IH].
  rewrite main_state. now apply run_action_last_request_time.
Qed.

Lemma last_request_time_never_decreases_witness :
  last_request_time terse_state
  <= last_request_time
       (run_session default_config
          [ mkTurn (ChatInput "Hello") 100 echo_api "url" "m" 0.7 512;
            mkTurn (ChatInput "Again") 50 echo_api "url" "m" 0.7 512 ]
          terse_state).
Proof.
  apply last_request_time_never_decreases. discriminate.
Defined.

Lemma slice_from_singleton {A} (n : Z) (x : A) :
  (0 <= n)%Z -> Py.slice_from (- n) [x] = [x].
Proof.
  intros Hn. destruct (Z.eq_dec n 0) as [->|Hne].
  - reflexivity.
  - rewrite slice_from_neg by lia. simpl length.
    replace (1 - Z.to_nat n)%nat with 0%nat by lia. reflexivity.
Qed.

(** After a reset the next accepted turn sends a prompt without any of the
    earlier conversation: the system line (if any), then the new input, twice,
    then the cue. *)
Theorem reset_forgets_history_in_prompt (cfg : Config) (now : Q) (api : Api)
    (user_input api_url model_name : string) (temperature : Q) (max_tokens : Z)
    (s : SessionState) :
  (0 <= MAX_HISTORY_MESSAGES cfg)%Z ->
  RATE_LIMIT_SECONDS cfg <= now - last_request_time s ->
  Py.strip user_input <> "" ->
  exists rest,
    events (handle_user_input cfg now api user_input api_url model_name
                              temperature max_tokens (state_of (reset_chat s)))
    = chat_write user user_input
      :: requests_post api_url
           (mkPayload
              (Py.join Py.nl
                 (system_lines s
                  ++ [("Human: " ++ user_input)%string;
                      ("Human: " ++ user_input)%string])%list
               ++ Py.nl ++ "Assistant:")
              max_tokens temperature model_name stop_sequences)
      :: rest.
Proof.
  intros HN Hgate Hinput.
  assert (Hp : sent_payload cfg user_input model_name temperature max_tokens
                 (with_user_turn now user_input (state_of (reset_chat s)))
               = mkPayload
                   (Py.join Py.nl
                      (system_lines s
                       ++ [("Human: " ++ user_input)%string;
                           ("Human: " ++ user_input)%string])%list
                    ++ Py.nl ++ "Assistant:")
                   max_tokens temperature model_name stop_sequences).
  { unfold sent_payload, prompt_lines.
    change (messages (with_user_turn now user_input (state_of (reset_chat s))))
      with [mkMessage user user_input].
    change (system_lines (with_user_turn now user_input (state_of (reset_chat s))))
      with (system_lines s).
    rewrite slice_from_singleton by assumption. reflexivity. }
  controller_cases cfg now api user_input api_url model_name temperature
                   max_tokens (state_of (reset_chat s)).
  - exfalso. exact (Qlt_not_le _ _ Hlt Hgate).
  - contradiction.
  - rewrite Hr, Hp. eexists. reflexivity.
  - rewrite Hr, Hp. eexists. reflexivity.
Qed.

Lemma reset_forgets_history_in_prompt_witness :
  exists rest,
    events (handle_user_input default_config 100 echo_api "Hi" "url" "m" 0.7 512
              (state_of (reset_chat
                           (mkState sample_log true None "Be terse." "modern" 0))))
    = chat_write user "Hi"
      :: requests_post "url"
           (mkPayload
              ("System: Be terse." ++ Py.nl ++ Py.nl ++ "Human: Hi" ++ Py.nl
               ++ "Human: Hi" ++ Py.nl ++ "Assistant:")
              512 0.7 "m" stop_sequences)
      :: rest.
Proof.
  apply (reset_forgets_history_in_prompt default_config 100 echo_api "Hi" "url"
           "m" 0.7 512 (mkState sample_log true None "Be terse." "modern" 0)).
  - simpl. lia.
  - vm_compute. discriminate.
  - discriminate.
Defined.

(** ** Initialising the session *)

Lemma dict_lookup_set_same k v d : dict_lookup k (dict_set k v d) = Some v.
Proof.
  induction d as [|[k' v'] d IH]; simpl.
  - now rewrite String.eqb_refl.
  - destruct (String.eqb_spec k' k) as [->|Hne]; simpl.
    + now rewrite String.eqb_refl.
    + destruct (String.eqb_spec k' k); [contradiction | exact IH].
Qed.

Lemma dict_lookup_set_other k k' v d :
  k' <> k -> dict_lookup k' (dict_set k v d) = dict_lookup k' d.
Proof.
  intros Hne. induction d as [|[k0 v0] d IH]; simpl.
  - destruct (String.eqb_spec k k'); [congruence | reflexivity].
  - destruct (String.eqb_spec k0 k) as [->|H0]; simpl.
    + destruct (String.eqb_spec k k'); [congruence | reflexivity].
    + destruct (String.eqb_spec k0 k'); [reflexivity | exact IH].
Qed.

Lemma fill_step_keeps d kv k v :
  dict_lookup k d = Some v -> dict_lookup k (fill_step d kv) = Some v.
Proof.
  intros H. unfold fill_step, dict_contains.
  destruct (dict_lookup (fst kv) d) eqn:E; [exact H|].
  rewrite dict_lookup_set_other; [exact H|].
  intros ->. congruence.
Qed.

Lemma fill_defaults_keeps defaults : forall d k v,
  dict_lookup k d = Some v -> dict_lookup k (fill_defaults defaults d) = Some v.
Proof.
  unfold fill_defaults.
  induction defaults as [|kv defaults IH]; intros d k v H; simpl; [exact H|].
  apply IH. now apply (fill_step_keeps d kv).
Qed.

Lemma fill_defaults_fills defaults : forall d k v,
  NoDup (map fst defaults) ->
  In (k, v) defaults ->
  dict_lookup k d = None ->
  dict_lookup k (fill_defaults defaults d) = Some v.
Proof.
  induction defaults as [|[k0 v0] defaults IH]; intros d k v Hnd Hin Hd;
    [contradiction|].
  inversion Hnd as [|? ? Hk0 Hnd']; subst.
  change (fill_defaults ((k0, v0) :: defaults) d)
    with (fill_defaults defaults (fill_step d (k0, v0))).
  destruct Hin as [Heq | Hin].
  - injection Heq as -> ->. apply fill_defaults_keeps.
    unfold fill_step, dict_contains. simpl. rewrite Hd.
    apply dict_lookup_set_same.
  - apply IH; try assumption.
    assert (Hne : k <> k0).
    { intros ->. apply Hk0. apply (in_map fst) in Hin. exact Hin. }
    unfold fill_step, dict_contains. simpl.
    destruct (dict_lookup k0 d); [exact Hd|].
    now rewrite dict_lookup_set_other.
Qed.

Lemma fill_defaults_contains defaults : forall d kv,
  In kv defaults -> dict_contains (fst kv) (fill_defaults defaults d) = true.
Proof.
  induction defaults as [|kv0 defaults IH]; intros d kv Hin; [contradiction|].
  change (fill_defaults (kv0 :: defaults) d)
    with (fill_defaults defaults (fill_step d kv0)).
  destruct Hin as [-> | Hin]; [|now apply IH].
  assert (H : exists v, dict_lookup (fst kv) (fill_step d kv) = Some v).
  { unfold fill_step, dict_contains.
    destruct (dict_lookup (fst kv) d) eqn:E; [eauto|].
    rewrite dict_lookup_set_same. eauto. }
  destruct H as [v Hv]. unfold dict_contains.
  now rewrite (fill_defaults_keeps defaults _ _ _ Hv).
Qed.

Lemma fill_defaults_noop defaults d :
  (forall kv, In kv defaults -> dict_contains (fst kv) d = true) ->
  fill_defaults defaults d = d.
Proof.
  unfold fill_defaults.
  induction defaults as [|kv defaults IH]; intros H; simpl; [reflexivity|].
  unfold fill_step at 2. rewrite (H kv (or_introl eq_refl)). apply IH.
  intros kv' Hin. apply H. now right.
Qed.

Lemma default_states_keys_distinct : NoDup (map fst default_states).
Proof.
  simpl. repeat constructor; simpl; intuition discriminate.
Qed.

(** What the session already holds survives [initialize_session_state]: a
    rerun of the script keeps the log, the system prompt and the time of the
    last request, and keys that are not defaults. *)
Theorem initialize_keeps_existing (d : SessionDict) (k : string) (v : Value) :
  dict_lookup k d = Some v ->
  dict_lookup k (initialize_session_state d) = Some v.
Proof. apply fill_defaults_keeps. Qed.

Lemma initialize_keeps_existing_witness :
  dict_lookup "messages"
    (initialize_session_state [("messages", VMessages sample_log)])
  = Some (VMessages sample_log).
Proof.
  apply initialize_keeps_existing. reflexivity.
Defined.

(** A default key that the session lacks gets its default value, whatever
    else the session holds. *)
Theorem initialize_fills_missing (d : SessionDict) (k : string) (v : Value) :
  In (k, v) default_states ->
  dict_lookup k d = None ->
  dict_lookup k (initialize_session_state d) = Some v.
Proof.
  apply fill_defaults_fills. exact default_states_keys_distinct.
Qed.

Lemma initialize_fills_missing_witness :
  dict_lookup "last_request_time"
    (initialize_session_state [("messages", VMessages sample_log)])
  = Some (VNum 0).
Proof.
  apply initialize_fills_missing.
  - simpl. auto 10.
  - reflexivity.
Defined.

(** Initialising twice is initialising once, and a fresh session gets the
    six defaults: an empty log, the built-in system prompt and a time of the
    last request of 0. *)
Theorem initialize_idempotent (d : SessionDict) :
  initialize_session_state (initialize_session_state d)
  = initialize_session_state d
  /\ session_of_dict (initialize_session_state []) = Some initial_state.
Proof.
  split; [|reflexivity].
  apply fill_defaults_noop. intros kv Hin.
  now apply fill_defaults_contains.
Qed.

(** ** Export *)

Lemma message_json_injective (m m' : Message) :
  message_json m = message_json m' -> m = m'.
Proof.
  destruct m as [r c], m' as [r' c']. unfold message_json. simpl.
  intros H. injection H as Hr Hc. subst.
  destruct r, r'; try discriminate; reflexivity.
Qed.

Lemma map_message_json_injective (l l' : list Message) :
  map message_json l = map message_json l' -> l = l'.
Proof.
  revert l'. induction l as [|m l IH]; intros [|m' l'] H; try discriminate.
  - reflexivity.
  - cbn [map] in H. injection H as Hr Hc Hl.
    rewrite (IH _ Hl). f_equal. apply message_json_injective.
    unfold message_json. now rewrite Hr, Hc.
Qed.

Lemma export_offered_iff_log_not_empty_aux (timestamp : string) (s : SessionState) :
  export_chat_history timestamp s = None <-> messages s = [].
Proof.
  unfold export_chat_history.
  destruct (messages s); split; congruence.
Qed.

(** The export is offered exactly when the log is not empty; in the run in
    which the log is reset, where the export comes after the reset, it is
    not offered. *)
Theorem export_offered_iff_log_not_empty (timestamp : string) (s : SessionState) :
  (export_chat_history timestamp s = None <-> messages s = [])
  /\ export_chat_history timestamp (state_of (reset_chat s)) = None.
Proof.
  split; [|reflexivity].
  apply export_offered_iff_log_not_empty_aux.
Qed.

Lemma export_some (timestamp : string) (s : SessionState) (d : Download) :
  export_chat_history timestamp s = Some d ->
  d = mkDownload
        (JObj [ ("app_info", get_app_info);
                ("timestamp", JStr timestamp);
                ("messages", JArr (map message_json (messages s)));
                ("system_prompt", JStr (system_prompt s)) ])
        ("chat_history_" ++ timestamp ++ ".json")
        "application/json".
Proof.
  unfold export_chat_history.
  destruct (messages s); [discriminate|]. now intros [= <-].
Qed.

(** The exported document loses nothing: two exports with the same document
    come from the same log (roles, contents, order), the same system prompt
    and the same clock reading. *)
Theorem export_determines_conversation (timestamp timestamp' : string)
    (s s' : SessionState) (d d' : Download) :
  export_chat_history timestamp s = Some d ->
  export_chat_history timestamp' s' = Some d' ->
  data d = data d' ->
  messages s = messages s'
  /\ system_prompt s = system_prompt s'
  /\ timestamp = timestamp'
  /\ file_name d = file_name d'.
Proof.
  intros H H' Hd.
  apply export_some in H. apply export_some in H'.
  rewrite H, H' in Hd |- *. cbn [data file_name] in Hd |- *.
  injection Hd as Hts Hl Hsp. subst timestamp'.
  apply map_message_json_injective in Hl. auto.
Qed.

Lemma export_determines_conversation_witness :
  messages (mkState sample_log true None "Be terse." "modern" 0)
  = messages (mkState sample_log false None "Be terse." "classic" 7).
Proof.
  refine (proj1 (export_determines_conversation "20250122_161037"
                   "20250122_161037"
                   (mkState sample_log true None "Be terse." "modern" 0)
                   (mkState sample_log false None "Be terse." "classic" 7)
                   _ _ eq_refl eq_refl eq_refl)).
Defined.

(** Once a turn has been accepted the export is offered, also when the
    request failed or an exception escaped: the log holds the user turn. *)
Theorem export_offered_after_accepted_turn (cfg : Config) (now : Q) (api : Api)
    (user_input api_url model_name : string) (temperature : Q) (max_tokens : Z)
    (s : SessionState) (timestamp : string) :
  RATE_LIMIT_SECONDS cfg <= now - last_request_time s ->
  Py.strip user_input <> "" ->
  export_chat_history timestamp
    (state_of (handle_user_input cfg now api user_input api_url model_name
                                 temperature max_tokens s))
  <> None.
Proof.
  intros Hgate Hinput Hnone.
  apply (proj1 (export_offered_iff_log_not_empty_aux timestamp _)) in Hnone.
  revert Hnone.
  controller_cases cfg now api user_input api_url model_name temperature
                   max_tokens s; rewrite Hr.
  - exfalso. exact (Qlt_not_le _ _ Hlt Hgate).
  - contradiction.
  - unfold state_of, with_user_turn, Py.append. simpl.
    intros H. apply app_eq_nil in H. destruct H; discriminate.
  - unfold state_of, with_user_turn, Py.append. simpl.
    intros H. apply app_eq_nil in H. destruct H; discriminate.
Qed.

Lemma export_offered_after_accepted_turn_witness :
  export_chat_history "20250122_161037"
    (state_of (handle_user_input default_config 100 timeout_api "Hi" "url" "m"
                                 0.7 512 terse_state))
  <> None.
Proof.
  apply export_offered_after_accepted_turn.
  - vm_compute. discriminate.
  - discriminate.
Defined.

(** ** Health probe *)

(** The probe asks [{api_url}/health].  It returns [True] exactly when the
    answer has status 200; it returns [False] exactly when the answer has
    another status or the request raises an exception of the request
    library; any other exception it lets through. *)
Theorem check_api_health_outcomes (get_status : string -> Res Z)
    (api_url : string) :
  let probe := check_api_health get_status api_url in
  let url := api_url ++ "/health" in
  fst probe = url
  /\ (snd probe = Ret true <-> get_status url = Ret 200%Z)
  /\ (snd probe = Ret false
      <-> (exists code, get_status url = Ret code /\ code <> 200%Z)
          \/ (exists e, get_status url = Raise e
                        /\ isinstance (exn_class e) H_RequestException = true))
  /\ (forall e,
        snd probe = Raise e
        <-> get_status url = Raise e
            /\ isinstance (exn_class e) H_RequestException = false).
Proof.
  intros probe url. subst probe url.
  unfold check_api_health. cbn [fst snd].
  split; [reflexivity|].
  destruct (get_status (api_url ++ "/health")) as [code|e].
  - split; [|split].
    + split; intros H.
      * injection H as H. apply Z.eqb_eq in H. now subst.
      * injection H as H. subst code. reflexivity.
    + split.
      * intros H. injection H as H. apply Z.eqb_neq in H.
        left. exists code. split; [reflexivity | exact H].
      * intros [(c & Hc & Hne) | (e & He & _)]; [|discriminate].
        injection Hc as <-. apply Z.eqb_neq in Hne. now rewrite Hne.
    + intros e. split; [discriminate | intros [H _]; discriminate].
  - destruct (isinstance (exn_class e) H_RequestException) eqn:E.
    + split; [|split].
      * split; discriminate.
      * split; [|reflexivity].
        intros _. right. exists e. split; [reflexivity | exact E].
      * intros e'. split; [discriminate|].
        intros [H He']. injection H as <-. congruence.
    + split; [|split].
      * split; discriminate.
      * split; [discriminate|].
        intros [(c & Hc & _) | (e' & He' & Hi)]; [discriminate|].
        injection He' as <-. congruence.
      * intros e'. split.
        -- intros H. injection H as <-. split; [reflexivity | exact E].
        -- intros [H _]. injection H as <-. reflexivity.
Qed.
